(** * A static blog over the Notion API: list view and single-post view

    Shallow embedding of the two pages of the repository:
    - the list view (the page with [getPosts] and [getPostContents]),
    - the single-post view (the page whose [getStaticProps] does everything
      inline).

    JavaScript values are modelled as the code reads them: an object is a
    record whose optional members are [option]s ([None] is [undefined]),
    reading a member of [undefined] raises [TypeError], a [switch] runs its
    clauses from the matching label until a [break], and [await] on the
    Notion client either yields a value or propagates the rejection. *)

From Stdlib Require Import String List.
From stdpp Require Import base option strings list gmap.

Open Scope string_scope.
Open Scope list_scope.

(** ** Completions: a value, or a thrown error *)

Inductive JsError : Type :=
| TypeError
| ReferenceError (name : string)
| Rejected (reason : string).

Inductive completion (A : Type) : Type :=
| Normal (a : A)
| Throw (e : JsError).

Arguments Normal {A} a.
Arguments Throw {A} e.

#[global] Instance completion_ret : MRet completion := fun _ a => Normal a.

#[global] Instance completion_bind : MBind completion := fun _ _ k c =>
  match c with
  | Normal a => k a
  | Throw e => Throw e
  end.

(** [o.member] where [o] may be [undefined]. *)
Definition require {A} (o : option A) : completion A :=
  match o with
  | Some a => Normal a
  | None => Throw TypeError
  end.

(** Code that mutates a local array and may throw: the array is threaded
    through, and it is still observable after a throw. *)
Definition Eff (S A : Type) : Type := S -> completion A * S.

#[global] Instance Eff_ret {S} : MRet (Eff S) := fun _ a s => (Normal a, s).

#[global] Instance Eff_bind {S} : MBind (Eff S) := fun _ _ k m s =>
  match m s with
  | (Normal a, s') => k a s'
  | (Throw e, s') => (Throw e, s')
  end.

Definition lift {S A} (c : completion A) : Eff S A := fun s => (c, s).

(** [array.push(x)] *)
Definition push {A} (x : A) : Eff (list A) unit := fun s => (Normal tt, s ++ [x]).

(** [array.forEach(f)] *)
Fixpoint forEach {S A} (f : A -> Eff S unit) (l : list A) : Eff S unit :=
  match l with
  | [] => mret tt
  | x :: rest => f x ;; forEach f rest
  end.

(** ** The [switch] statement

    A clause is a label and a body; the body says whether it ends in
    [break] or runs on into the next clause. *)

Inductive flow : Type := Break | Fallthrough.

Definition clause (S : Type) : Type := (string * Eff S flow)%type.

Fixpoint run_clauses {S} (cs : list (clause S)) : Eff S unit :=
  match cs with
  | [] => mret tt
  | (_, body) :: rest =>
      f ← body;
      match f with
      | Break => mret tt
      | Fallthrough => run_clauses rest
      end
  end.

Fixpoint switch {S} (tag : string) (cs : list (clause S)) : Eff S unit :=
  match cs with
  | [] => mret tt
  | (label, body) :: rest =>
      if String.eqb tag label then run_clauses ((label, body) :: rest)
      else switch tag rest
  end.

(** ** Data of the Notion API, as the pages read it *)

Record RichText : Type := { plain_text : string }.

(** [rich_text[0]?.plain_text ?? null] *)
Definition first_plain_text (rich_text : list RichText) : option string :=
  plain_text <$> head rich_text.

Module TextBody.
Record t : Type := mk { rich_text : list RichText }.
End TextBody.

Module CodeBody.
Record t : Type := mk { rich_text : list RichText; language : string }.
End CodeBody.

(** A block object. [type = None] is a partial block (no [type] key); each
    payload member is present or [undefined]. *)
Module Block.
Record t : Type := mk {
  type : option string;
  paragraph : option TextBody.t;
  heading_2 : option TextBody.t;
  heading_3 : option TextBody.t;
  quote : option TextBody.t;
  code : option CodeBody.t
}.
End Block.

Module Property.
Record t : Type := mk {
  type : string;
  title : option (list RichText);
  rich_text : option (list RichText)
}.
End Property.

(** A page (or database) object of a query result. [properties = None] is a
    partial object without a [properties] key. *)
Module Page.
Record t : Type := mk {
  id : string;
  properties : option (gmap string Property.t);
  created_time : option string;
  last_edited_time : option string
}.
End Page.

(** The Notion client: the two calls the pages make. *)
Module Client.
Record t : Type := mk {
  databases_query : completion (list Page.t);
  blocks_children_list : option string -> completion (list Block.t)
}.
End Client.

(** ** Data of the pages *)

Inductive TextKind : Type := Paragraph | Quote | Heading2 | Heading3.

Inductive Content : Type :=
| TextContent (kind : TextKind) (text : option string)
| CodeContent (text : option string) (language : option string).

Definition kind_tag (k : TextKind) : string :=
  match k with
  | Paragraph => "paragraph"
  | Quote => "quote"
  | Heading2 => "heading_2"
  | Heading3 => "heading_3"
  end.

Definition content_type (c : Content) : string :=
  match c with
  | TextContent k _ => kind_tag k
  | CodeContent _ _ => "code"
  end.

Module Post.
Record t : Type := mk {
  id : string;
  title : option string;
  slug : option string;
  createdTs : option string;
  lastEditedTs : option string;
  contents : list Content
}.

Definition set_contents (cs : list Content) (p : t) : t :=
  mk (id p) (title p) (slug p) (createdTs p) (lastEditedTs p) cs.
End Post.

(** The pushes of the flatteners, one per [case]. *)
Definition push_text (kind : TextKind) (body : option TextBody.t) : Eff (list Content) unit :=
  b ← lift (require body);
  push (TextContent kind (first_plain_text (TextBody.rich_text b))).

Definition push_code (body : option CodeBody.t) : Eff (list Content) unit :=
  b ← lift (require body);
  push (CodeContent (first_plain_text (CodeBody.rich_text b))
                    (Some (CodeBody.language b))).

(** Runs a flattener callback over a fresh [contents] array and returns the
    array, or the error. *)
Definition collect {A} (f : A -> Eff (list Content) unit) (l : list A) : completion (list Content) :=
  match forEach f l [] with
  | (Normal _, contents) => Normal contents
  | (Throw e, _) => Throw e
  end.

(** [Promise.all] over promises that have settled: the results in the order
    of the promises, or a rejection. With several rejections the one that
    settles first wins in JavaScript; here it is the first in list order,
    and nothing below depends on which one it is. *)
Fixpoint Promise_all {A} (promises : list (completion A)) : completion (list A) :=
  match promises with
  | [] => mret []
  | p :: rest => a ← p; others ← Promise_all rest; mret (a :: others)
  end.

(** The shape shared by the four field extractors:
[[
  let v = null;
  if (properties[name]?.type === ty) { v = properties[name].member[0]?.plain_text ?? null; }
]]
    A property of the right type whose [member] is [undefined] raises
    [TypeError] at [member[0]]. *)
Definition read_property (properties : gmap string Property.t) (name ty : string)
    (member : Property.t -> option (list RichText)) : completion (option string) :=
  match properties !! name with
  | Some property =>
      if String.eqb (Property.type property) ty then
        segments ← require (member property);
        mret (first_plain_text segments)
      else mret None
  | None => mret None
  end.

(** ** Markup

    What a component returns: elements with their tag, the style-sheet key
    of their class and their children. React keys are not part of it. *)

#[local] Set Warnings "-register-all".
Inductive Markup : Type :=
| Fragment (children : list Markup)
| Element (tag className : string) (children : list Markup)
| Text (value : option string).

(** ** The list view *)

Module ListView.

Record StaticProps : Type := { posts : option (list Post.t) }.

Record Result : Type := { props : StaticProps; revalidate : nat }.

Definition getTitle (page : Page.t) : completion (option string) :=
  properties ← require (Page.properties page);
  read_property properties "Name" "title" Property.title.

Definition getSlug (page : Page.t) : completion (option string) :=
  properties ← require (Page.properties page);
  read_property properties "Slug" "rich_text" Property.rich_text.

(** The [for (const page of database.results)] loop of [getPosts]. *)
Fixpoint getPosts_loop (results : list Page.t) (posts : list Post.t) : completion (list Post.t) :=
  match results with
  | [] => mret posts
  | page :: rest =>
      match Page.properties page with
      | Some _ =>
          title ← getTitle page;
          slug ← getSlug page;
          getPosts_loop rest
            (posts ++ [Post.mk (Page.id page) title slug
                         (Page.created_time page) (Page.last_edited_time page) []])
      | None => getPosts_loop rest posts
      end
  end.

Definition getPosts (notion : Client.t) : completion (list Post.t) :=
  database ← Client.databases_query notion;
  getPosts_loop database [].

(** The callback of [blocks.results.forEach] in [getPostContents]. Only the
    [paragraph] clause ends in [break]; there is no [heading_3] clause. *)
Definition callback (block : Block.t) : Eff (list Content) unit :=
  match Block.type block with
  | None => mret tt
  | Some tag =>
      switch tag
        [ ("paragraph", push_text Paragraph (Block.paragraph block);; mret Break);
          ("heading_2", push_text Heading2 (Block.heading_2 block);; mret Fallthrough);
          ("quote", push_text Quote (Block.quote block);; mret Fallthrough);
          ("code", push_code (Block.code block);; mret Fallthrough) ]
  end.

(** The part of [getPostContents] after the query: a fresh [contents], the
    [forEach], [return contents]. *)
Definition flattenBlocks (results : list Block.t) : completion (list Content) :=
  collect callback results.

Definition getPostContents (notion : Client.t) (post : Post.t) : completion (list Content) :=
  blocks ← Client.blocks_children_list notion (Some (Post.id post));
  flattenBlocks blocks.

(** [posts.forEach((post, index) => { post.contents = contentsList[index]; })]:
    every post object is updated in place. An index past the end of
    [contentsList] would read [undefined]; [Promise.all] returns one entry
    per post, so that read does not occur (see [Promise_all_length]). *)
Definition assign_contents (contentsList : list (list Content)) (posts : list Post.t) : list Post.t :=
  imap (fun index post => Post.set_contents (default [] (contentsList !! index)) post) posts.

Definition getStaticProps (notion : Client.t) : completion Result :=
  posts ← getPosts notion;
  contentsList ← Promise_all (map (fun post => getPostContents notion post) posts);
  mret {| props := {| posts := Some (assign_contents contentsList posts) |};
          revalidate := 60 |}.

(** The component. Its prop is [posts]; its body renders from the
    identifier [post]. [scope] holds the post-valued identifiers bound where
    the body runs: there is none, so the first read of [post], in
    [post?.title], raises [ReferenceError]. [format] stands for
    [dayjs(ts).tz().format("YYYY-MM-DD HH:mm:ss")]. *)
Definition scope : gmap string Post.t := ∅.

Definition resolve (name : string) : completion Post.t :=
  match scope !! name with
  | Some value => Normal value
  | None => Throw (ReferenceError name)
  end.

(** The callback of [post.contents.map]; the class of [pre] is the [code]
    key followed by [lang-] and the language. *)
Definition render_content (content : Content) : Markup :=
  match content with
  | TextContent Heading2 text => Element "h2" "heading2" [Text text]
  | TextContent Heading3 text => Element "h3" "heading3" [Text text]
  | TextContent Paragraph text => Element "p" "paragraph" [Text text]
  | CodeContent text language =>
      Element "pre" ("code lang-" +:+ default "null" language)
        [Element "code" "" [Text text]]
  | TextContent Quote text => Element "blockquote" "quote" [Text text]
  end.

Definition Home (format : option string -> string) (p : StaticProps) : completion (option Markup) :=
  match posts p with
  | None => mret None
  | Some _ =>
      post ← resolve "post";
      mret (Some (Fragment
        [Element "div" "wrapper"
           [Element "div" "post"
              ([Element "h1" "title" [Text (Post.title post)];
                Element "div" "timestampWrapper"
                  [Element "div" ""
                     [Element "div" "timestamp"
                        [Text (Some "作成日時:"); Text (Some " ");
                         Text (Some (format (Post.createdTs post)))];
                      Element "div" "timestamp"
                        [Text (Some "更新日時:"); Text (Some " ");
                         Text (Some (format (Post.lastEditedTs post)))]]]]
               ++ map render_content (Post.contents post))]]))
  end.

End ListView.

(** ** The single-post view *)

Module SinglePost.

Record StaticProps : Type := { post : option Post.t }.

Record Result : Type := { props : StaticProps }.

(** The callback of [blocks.results.forEach]: every clause but the last ends
    in [break]. *)
Definition callback (block : Block.t) : Eff (list Content) unit :=
  match Block.type block with
  | None => mret tt
  | Some tag =>
      switch tag
        [ ("paragraph", push_text Paragraph (Block.paragraph block);; mret Break);
          ("heading_2", push_text Heading2 (Block.heading_2 block);; mret Break);
          ("heading_3", push_text Heading3 (Block.heading_3 block);; mret Break);
          ("quote", push_text Quote (Block.quote block);; mret Break);
          ("code", push_code (Block.code block);; mret Fallthrough) ]
  end.

(** [const contents = []; blocks.results.forEach(...)] *)
Definition flattenBlocks (results : list Block.t) : completion (list Content) :=
  collect callback results.

(** The two inline extractions of [getStaticProps]. *)
Definition title_of (properties : gmap string Property.t) : completion (option string) :=
  read_property properties "Name" "title" Property.title.

Definition slug_of (properties : gmap string Property.t) : completion (option string) :=
  read_property properties "Slug" "rich_text" Property.rich_text.

(** The block-children query is issued before [page] is tested, with
    [database.results[0]?.id] as its block id. *)
Definition getStaticProps (notion : Client.t) : completion Result :=
  database ← Client.databases_query notion;
  blocks ← Client.blocks_children_list notion (Page.id <$> head database);
  match head database with
  | None => mret {| props := {| post := None |} |}
  | Some page =>
      match Page.properties page with
      | None =>
          mret {| props := {| post := Some (Post.mk (Page.id page) None None None None []) |} |}
      | Some properties =>
          title ← title_of properties;
          slug ← slug_of properties;
          contents ← flattenBlocks blocks;
          mret {| props := {| post :=
                    Some (Post.mk (Page.id page) title slug
                            (Page.created_time page) (Page.last_edited_time page)
                            contents) |} |}
      end
  end.

(** The component: [null] without a post, otherwise the title in its
    wrappers. Class names are the keys read from the style sheet. *)
Definition Home (p : StaticProps) : option Markup :=
  match post p with
  | None => None
  | Some post =>
      Some (Fragment
              [Element "div" "wrapper"
                 [Element "div" "post"
                    [Element "h1" "title" [Text (Post.title post)]]]])
  end.

End SinglePost.

(** ** Blocks as the block-children query returns them

    The client library declares a block as a tagged union: a block whose
    [type] is one of the five tags below carries the payload member of that
    name, and no block carries a payload member of another name. *)

Definition recognized_tags : list string :=
  ["paragraph"; "heading_2"; "heading_3"; "quote"; "code"].

Definition has_tag (tag : string) (block : Block.t) : bool :=
  bool_decide (Block.type block = Some tag).

Definition api_shaped (block : Block.t) : bool :=
  bool_decide (is_Some (Block.paragraph block) <-> Block.type block = Some "paragraph")
  && bool_decide (is_Some (Block.heading_2 block) <-> Block.type block = Some "heading_2")
  && bool_decide (is_Some (Block.heading_3 block) <-> Block.type block = Some "heading_3")
  && bool_decide (is_Some (Block.quote block) <-> Block.type block = Some "quote")
  && bool_decide (is_Some (Block.code block) <-> Block.type block = Some "code").

(** Constructors of API-shaped blocks. *)
Definition text_block (kind : TextKind) (rich_text : list RichText) : Block.t :=
  let body := Some (TextBody.mk rich_text) in
  match kind with
  | Paragraph => Block.mk (Some "paragraph") body None None None None
  | Heading2 => Block.mk (Some "heading_2") None body None None None
  | Heading3 => Block.mk (Some "heading_3") None None body None None
  | Quote => Block.mk (Some "quote") None None None body None
  end.

Definition code_block (rich_text : list RichText) (language : string) : Block.t :=
  Block.mk (Some "code") None None None None (Some (CodeBody.mk rich_text language)).

Definition other_block (tag : string) : Block.t :=
  Block.mk (Some tag) None None None None None.

Definition partial_block : Block.t :=
  Block.mk None None None None None None.

(** ** The flattener the specification describes

    Following the specification's words: a block of a recognized type gives
    exactly one content record of that type, read from the first rich-text
    run; every other block gives none; order is kept. *)

Definition spec_content (block : Block.t) : option Content :=
  match Block.type block with
  | Some tag =>
      if String.eqb tag "paragraph" then
        (fun b => TextContent Paragraph (first_plain_text (TextBody.rich_text b))) <$> Block.paragraph block
      else if String.eqb tag "heading_2" then
        (fun b => TextContent Heading2 (first_plain_text (TextBody.rich_text b))) <$> Block.heading_2 block
      else if String.eqb tag "heading_3" then
        (fun b => TextContent Heading3 (first_plain_text (TextBody.rich_text b))) <$> Block.heading_3 block
      else if String.eqb tag "quote" then
        (fun b => TextContent Quote (first_plain_text (TextBody.rich_text b))) <$> Block.quote block
      else if String.eqb tag "code" then
        (fun b => CodeContent (first_plain_text (CodeBody.rich_text b)) (Some (CodeBody.language b)))
          <$> Block.code block
      else None
  | None => None
  end.

Definition spec_flatten (blocks : list Block.t) : list Content :=
  omap spec_content blocks.

(** Blocks on which the list view's [switch] runs past the clause of the
    block's own tag. *)
Definition falls_through (block : Block.t) : bool :=
  has_tag "heading_2" block || has_tag "quote" block.

(** ** Sample data *)

Definition heading_intro : Block.t := text_block Heading2 [{| plain_text := "Intro" |}].

Definition subheading_setup : Block.t := text_block Heading3 [{| plain_text := "Setup" |}].

Definition paragraph_body : Block.t := text_block Paragraph [{| plain_text := "Body" |}].

Definition quote_motto : Block.t :=
  text_block Quote [{| plain_text := "Less is more" |}; {| plain_text := " (Mies)" |}].

Definition code_sample : Block.t := code_block [{| plain_text := "x = 1" |}] "python".

(** A block object that no query returns: tagged [heading_2], it also
    carries a [quote] and a [code] payload. *)
Definition overloaded_heading : Block.t :=
  Block.mk (Some "heading_2") None
    (Some (TextBody.mk [{| plain_text := "Intro" |}])) None
    (Some (TextBody.mk [{| plain_text := "Intro" |}]))
    (Some (CodeBody.mk [{| plain_text := "Intro" |}] "plain text")).

(** A page with a title and a slug. *)
Definition titled_properties : gmap string Property.t :=
  <["Name" := Property.mk "title"
                (Some [{| plain_text := "Hello" |}; {| plain_text := ", world" |}]) None]>
    (<["Slug" := Property.mk "rich_text" None (Some [{| plain_text := "hello" |}])]> ∅).

Definition titled_page : Page.t :=
  Page.mk "page-1" (Some titled_properties)
    (Some "2023-04-01T09:00:00.000Z") (Some "2023-04-02T10:30:00.000Z").

(** A page whose [Name] has no segment and whose [Slug] is of another type. *)
Definition untitled_properties : gmap string Property.t :=
  <["Name" := Property.mk "title" (Some []) None]>
    (<["Slug" := Property.mk "url" None None]> ∅).

Definition untitled_page : Page.t :=
  Page.mk "page-2" (Some untitled_properties)
    (Some "2023-05-01T09:00:00.000Z") (Some "2023-05-01T09:00:00.000Z").

(** A partial page object: an id and nothing else. *)
Definition bare_page : Page.t := Page.mk "page-3" None None None.

(** A block object tagged [paragraph] without its payload, on which both
    callbacks would throw. *)
Definition hollow_paragraph : Block.t := other_block "paragraph".

(** A client that answers every block-children query with the same blocks. *)
Definition fixed_client (database : list Page.t) (blocks : list Block.t) : Client.t :=
  Client.mk (Normal database) (fun _ => Normal blocks).

(** ** Unreadable properties

    The property [name] is absent, is of another type than [ty], or its
    [member] has no segment. *)
Definition unreadable (properties : gmap string Property.t) (name ty : string)
    (member : Property.t -> option (list RichText)) : Prop :=
  properties !! name = None \/
  exists property, properties !! name = Some property /\
    (Property.type property <> ty \/ member property = Some []).

(** ** Pages and blocks whose reads succeed

    The members the extractors and the callbacks read without a guard. *)

(** The property [name], when present with type [ty], has its [member]. *)
Definition member_present (properties : gmap string Property.t) (name ty : string)
    (member : Property.t -> option (list RichText)) : bool :=
  match properties !! name with
  | Some property =>
      if String.eqb (Property.type property) ty then bool_decide (is_Some (member property))
      else true
  | None => true
  end.

Definition page_shaped (page : Page.t) : bool :=
  match Page.properties page with
  | Some properties =>
      member_present properties "Name" "title" Property.title
      && member_present properties "Slug" "rich_text" Property.rich_text
  | None => true
  end.

(** A block of a recognized tag has the payload member of that name. *)
Definition own_payload (block : Block.t) : bool :=
  match Block.type block with
  | Some tag =>
      if String.eqb tag "paragraph" then bool_decide (is_Some (Block.paragraph block))
      else if String.eqb tag "heading_2" then bool_decide (is_Some (Block.heading_2 block))
      else if String.eqb tag "heading_3" then bool_decide (is_Some (Block.heading_3 block))
      else if String.eqb tag "quote" then bool_decide (is_Some (Block.quote block))
      else if String.eqb tag "code" then bool_decide (is_Some (Block.code block))
      else true
  | None => true
  end.

(** ** What the extractors and [getPosts] compute when nothing throws *)

Definition property_text (properties : gmap string Property.t) (name ty : string)
    (member : Property.t -> option (list RichText)) : option string :=
  property ← properties !! name;
  if String.eqb (Property.type property) ty then
    segments ← member property;
    plain_text <$> head segments
  else None.

(** The post of a page with a property bag; no post for a partial page. *)
Definition post_of_page (page : Page.t) : option Post.t :=
  properties ← Page.properties page;
  Some (Post.mk (Page.id page)
          (property_text properties "Name" "title" Property.title)
          (property_text properties "Slug" "rich_text" Property.rich_text)
          (Page.created_time page) (Page.last_edited_time page) []).

(** ** More sample data *)

(** A [Name] property typed [title] without its [title] member. *)
Definition broken_page : Page.t :=
  Page.mk "page-4" (Some (<["Name" := Property.mk "title" None None]> ∅))
    (Some "2023-06-01T09:00:00.000Z") (Some "2023-06-01T09:00:00.000Z").

(** A client whose block-children query depends on the block id: [page-1]
    has a paragraph and a code block, every other id a heading and a
    paragraph. *)
Definition two_post_client : Client.t :=
  Client.mk (Normal [titled_page; bare_page; untitled_page])
    (fun block_id =>
       if bool_decide (block_id = Some "page-1") then Normal [paragraph_body; code_sample]
       else Normal [heading_intro; paragraph_body]).

(** A client whose database query is rejected. *)
Definition offline_client : Client.t :=
  Client.mk (Throw (Rejected "ECONNREFUSED")) (fun _ => Throw (Rejected "ECONNREFUSED")).

(** A client without documents whose block-children query is rejected. *)
Definition empty_client : Client.t :=
  Client.mk (Normal []) (fun _ => Throw (Rejected "validation_error")).

(** ** Append-only computations *)

(** A computation that only appends to the array, the same entries and
    with the same outcome whatever the array holds. *)
Definition appending {A B} (m : Eff (list B) A) : Prop :=
  exists r d, forall s, m s = (r, s ++ d).

Definition appends {A B} (f : A -> Eff (list B) unit) : Prop :=
  forall x, appending (f x).

(** The post of [untitled_page] with one paragraph as its contents. *)
Definition untitled_post : Post.t :=
  Post.mk "page-2" None None
    (Some "2023-05-01T09:00:00.000Z") (Some "2023-05-01T09:00:00.000Z")
    [TextContent Paragraph (Some "Body")].

(** A client whose blocks differ from post to post, all of them handled by
    the list view: [page-1] has a paragraph and a code block, every other id
    a sub-heading and a paragraph. *)
Definition per_post_client : Client.t :=
  Client.mk (Normal [titled_page; bare_page; untitled_page])
    (fun block_id =>
       if bool_decide (block_id = Some "page-1") then Normal [paragraph_body; code_sample]
       else Normal [subheading_setup; paragraph_body]).

(** * Properties *)

(** ** The loop and the collected array *)

(** A callback that appends at most one record per element and never
    throws on the elements of [l] collects the records in order. *)
Lemma forEach_omap {A B} (f : A -> Eff (list B) unit) (g : A -> option B) (l : list A) :
  (forall x s, x ∈ l -> f x s = (Normal tt, s ++ option_list (g x))) ->
  forall s, forEach f l s = (Normal tt, s ++ omap g l).
Proof.
  induction l as [|x l IH]; intros Hstep s; simpl.
  - by rewrite app_nil_r.
  - unfold mbind, Eff_bind. rewrite Hstep by constructor.
    rewrite IH by (intros; apply Hstep; by constructor).
    rewrite <- app_assoc. by destruct (g x).
Qed.

(** The loop stops at the first element whose callback throws. *)
Lemma forEach_throw {S A} (f : A -> Eff S unit) (l : list A) (x : A) (s : S) e :
  x ∈ l ->
  (forall y s', y ∈ l -> exists r s'', f y s' = (r, s'') /\ (r = Normal tt \/ r = Throw e)) ->
  (forall s', exists s'', f x s' = (Throw e, s'')) ->
  exists s'', forEach f l s = (Throw e, s'').
Proof.
  revert s. induction l as [|y l IH]; intros s Hin Hall Hx.
  - by apply elem_of_nil in Hin.
  - simpl. unfold mbind, Eff_bind.
    destruct (Hall y s) as (r & s1 & Hy & Hr); [by constructor|].
    rewrite Hy. destruct Hr as [-> | ->]; [|by eexists].
    apply elem_of_cons in Hin as [-> | Hin].
    + destruct (Hx s) as [s2 Hs2]. rewrite Hs2 in Hy. discriminate.
    + apply IH; [done | | done]. intros; apply Hall. by constructor.
Qed.

(** ** The two callbacks on API-shaped blocks *)

Lemma api_shaped_spec (block : Block.t) :
  api_shaped block = true <->
    (is_Some (Block.paragraph block) <-> Block.type block = Some "paragraph") /\
    (is_Some (Block.heading_2 block) <-> Block.type block = Some "heading_2") /\
    (is_Some (Block.heading_3 block) <-> Block.type block = Some "heading_3") /\
    (is_Some (Block.quote block) <-> Block.type block = Some "quote") /\
    (is_Some (Block.code block) <-> Block.type block = Some "code").
Proof.
  unfold api_shaped. rewrite !andb_true_iff, !bool_decide_eq_true. tauto.
Qed.

(** Settles which payloads a block with a known tag carries. *)
Ltac payloads :=
  repeat match goal with
  | H : is_Some ?o <-> Some ?a = Some ?a |- _ =>
      let body := fresh "body" in
      destruct (proj2 H eq_refl) as [body ->]; clear H
  | H : is_Some ?o <-> ?ty = Some ?a |- _ =>
      let body := fresh "body" in
      destruct o as [body|];
      [ exfalso;
        let E := fresh in
        assert (E : ty = Some a) by (apply H; eauto);
        first [ discriminate E | injection E; congruence ]
      | clear H ]
  end.

Ltac by_tag tag :=
  repeat match goal with
  | |- context [String.eqb tag ?lit] =>
      destruct (String.eqb_spec tag lit);
      [ subst tag; payloads; try reflexivity | ]
  end.

Lemma SinglePost_callback_api (block : Block.t) (contents : list Content) :
  api_shaped block = true ->
  SinglePost.callback block contents =
    (Normal tt, contents ++ option_list (spec_content block)).
Proof.
  rewrite api_shaped_spec. destruct block as [[tag|] p h2 h3 q c]; simpl.
  - intros (Hp & Hh2 & Hh3 & Hq & Hc).
    unfold SinglePost.callback, spec_content, switch; simpl.
    by_tag tag. simpl. by rewrite app_nil_r.
  - intros _. unfold SinglePost.callback; simpl.
    unfold mret, Eff_ret. by rewrite app_nil_r.
Qed.

Lemma ListView_callback_api (block : Block.t) (contents : list Content) :
  api_shaped block = true ->
  ListView.callback block contents =
    if falls_through block then
      (Throw TypeError, contents ++ option_list (spec_content block))
    else if has_tag "heading_3" block then (Normal tt, contents)
    else (Normal tt, contents ++ option_list (spec_content block)).
Proof.
  rewrite api_shaped_spec. destruct block as [[tag|] p h2 h3 q c]; simpl.
  - intros (Hp & Hh2 & Hh3 & Hq & Hc).
    unfold ListView.callback, spec_content, falls_through, has_tag, switch; simpl.
    destruct (String.eqb_spec tag "paragraph"); [subst tag; payloads; reflexivity|].
    destruct (String.eqb_spec tag "heading_2"); [subst tag; payloads; reflexivity|].
    destruct (String.eqb_spec tag "quote"); [subst tag; payloads; reflexivity|].
    destruct (String.eqb_spec tag "code"); [subst tag; payloads; reflexivity|].
    rewrite !bool_decide_eq_false_2 by congruence. simpl.
    destruct (String.eqb_spec tag "heading_3").
    + subst tag. by rewrite bool_decide_eq_true_2.
    + by rewrite bool_decide_eq_false_2, app_nil_r by congruence.
  - intros _. unfold ListView.callback; simpl.
    unfold mret, Eff_ret. by rewrite app_nil_r.
Qed.

Lemma spec_content_length (block : Block.t) :
  length (option_list (spec_content block)) <= 1.
Proof. destruct (spec_content block); simpl; lia. Qed.

(** On API-shaped blocks a recognized tag always yields its record. *)
Lemma spec_content_recognized (block : Block.t) (tag : string) :
  api_shaped block = true ->
  Block.type block = Some tag ->
  tag ∈ recognized_tags ->
  exists c, spec_content block = Some c /\ content_type c = tag.
Proof.
  rewrite api_shaped_spec. destruct block as [ty p h2 h3 q c]; simpl.
  intros (Hp & Hh2 & Hh3 & Hq & Hc) -> Hin. unfold spec_content; simpl.
  unfold recognized_tags in Hin. rewrite !elem_of_cons in Hin.
  destruct Hin as [->|[->|[->|[->|[->|Hin]]]]];
    [payloads; simpl; eauto .. | by apply elem_of_nil in Hin].
Qed.

Lemma spec_content_unrecognized (block : Block.t) :
  (forall tag, Block.type block = Some tag -> tag ∉ recognized_tags) ->
  spec_content block = None.
Proof.
  intros Hno. unfold spec_content. destruct (Block.type block) as [tag|]; [|done].
  specialize (Hno tag eq_refl). unfold recognized_tags in Hno.
  rewrite !not_elem_of_cons in Hno. destruct Hno as (?&?&?&?&?&_).
  repeat match goal with
  | |- context [String.eqb tag ?lit] => destruct (String.eqb_spec tag lit); [congruence|]
  end.
  reflexivity.
Qed.

(** The single-post view's flattener is the specification's flattener on
    every list of API-shaped blocks. *)
Lemma SinglePost_flattenBlocks_spec (blocks : list Block.t) :
  Forall (fun b => api_shaped b = true) blocks ->
  SinglePost.flattenBlocks blocks = Normal (spec_flatten blocks).
Proof.
  intros Hall. unfold SinglePost.flattenBlocks, collect, spec_flatten.
  rewrite (forEach_omap _ spec_content); [done|].
  intros b s Hb. apply SinglePost_callback_api.
  by apply (proj1 (Forall_forall _ _) Hall).
Qed.

(** The list view's flattener on API-shaped blocks: it returns exactly when
    no block is a [heading_2] or a [quote], and then it is the
    specification's flattener with the [heading_3] blocks removed. *)
Lemma ListView_flattenBlocks_no_fallthrough (blocks : list Block.t) :
  Forall (fun b => api_shaped b = true) blocks ->
  Forall (fun b => falls_through b = false) blocks ->
  ListView.flattenBlocks blocks =
    Normal (spec_flatten (filter (fun b => has_tag "heading_3" b = false) blocks)).
Proof.
  intros Hall Hno. unfold ListView.flattenBlocks, collect, spec_flatten.
  rewrite (forEach_omap _
             (fun b => if has_tag "heading_3" b then None else spec_content b)).
  - simpl. f_equal. clear Hall Hno.
    induction blocks as [|b bs IH]; [done|].
    rewrite filter_cons. simpl. destruct (has_tag "heading_3" b) eqn:E.
    + rewrite decide_False by done. exact IH.
    + rewrite decide_True by done. simpl.
      destruct (spec_content b); [f_equal|]; exact IH.
  - intros b s Hb. rewrite ListView_callback_api
      by (by apply (proj1 (Forall_forall _ _) Hall)).
    rewrite (proj1 (Forall_forall _ _) Hno b Hb).
    destruct (has_tag "heading_3" b); simpl; [by rewrite app_nil_r | done].
Qed.

Example ListView_flattenBlocks_mixed :
  ListView.flattenBlocks
    [paragraph_body; subheading_setup; other_block "image"; partial_block; code_sample] =
    Normal [TextContent Paragraph (Some "Body"); CodeContent (Some "x = 1") (Some "python")].
Proof.
  rewrite ListView_flattenBlocks_no_fallthrough; [reflexivity | |]; repeat constructor.
Qed.

Lemma ListView_flattenBlocks_throws (blocks : list Block.t) :
  Forall (fun b => api_shaped b = true) blocks ->
  Exists (fun b => falls_through b = true) blocks ->
  ListView.flattenBlocks blocks = Throw TypeError.
Proof.
  intros Hall Hex. apply Exists_exists in Hex as (x & Hx & Hfall).
  assert (Hshape : forall b, b ∈ blocks -> api_shaped b = true)
    by (by apply Forall_forall).
  destruct (forEach_throw ListView.callback blocks x [] TypeError) as [s Hs].
  - done.
  - intros y s' Hy. rewrite ListView_callback_api by auto.
    destruct (falls_through y); [eauto|]. destruct (has_tag "heading_3" y); eauto.
  - intros s'. rewrite ListView_callback_api, Hfall by auto. eauto.
  - unfold ListView.flattenBlocks, collect. by rewrite Hs.
Qed.

(** ** Order and content of the flattened sequence *)

(** C1. On the block list [heading_2 "Intro"; paragraph "Body"] the
    specification's flattener, and the single-post view's, give the two
    records in order; the list view's flattener throws [TypeError] instead:
    after the [heading_2] push it runs on into the [quote] clause and reads
    [block.quote.rich_text] of a block without a [quote] member. *)
Theorem C1_list_view_loses_sequence :
  spec_flatten [heading_intro; paragraph_body] =
    [TextContent Heading2 (Some "Intro"); TextContent Paragraph (Some "Body")] /\
  SinglePost.flattenBlocks [heading_intro; paragraph_body] =
    Normal (spec_flatten [heading_intro; paragraph_body]) /\
  ListView.flattenBlocks [heading_intro; paragraph_body] = Throw TypeError.
Proof.
  split; [reflexivity|]. split.
  - apply SinglePost_flattenBlocks_spec. repeat constructor.
  - apply ListView_flattenBlocks_throws.
    + repeat constructor.
    + apply Exists_cons_hd. reflexivity.
Qed.

(** C2, as stated, fails on the blocks the query returns: for no API-shaped
    block does one run of the list view's callback leave more than one new
    entry in [contents], whether it returns or throws. *)
Lemma C2_no_api_block_pushes_twice :
  ~ exists (block : Block.t) (contents contents' : list Content) (r : completion unit),
      api_shaped block = true /\
      ListView.callback block contents = (r, contents') /\
      length contents + 1 < length contents'.
Proof.
  intros (b & cs & cs' & r & Hshape & Hrun & Hlen).
  rewrite ListView_callback_api in Hrun by done.
  pose proof (spec_content_length b) as Hone.
  destruct (falls_through b); [|destruct (has_tag "heading_3" b)];
    injection Hrun as <- <-; rewrite ?length_app in Hlen; lia.
Qed.

(** C2, amended. The [heading_2] and [quote] clauses of the list view's
    switch have no [break], so a block with one of these tags runs on into
    the next clause. (1) If the block is API-shaped, the next clause reads a
    payload the block does not carry: the callback throws [TypeError] after
    the single push of the block's own record. (2) Whenever one run of the
    callback leaves more than one new entry, the block has one of the two
    tags and carries the payload of the following clause, so it is not
    API-shaped. (3) Such a block object gets three entries. *)
Theorem C2_fallthrough_effect :
  (forall (block : Block.t) (contents : list Content),
      falls_through block = true ->
      api_shaped block = true ->
      exists c, ListView.callback block contents = (Throw TypeError, contents ++ [c]) /\
                Block.type block = Some (content_type c)) /\
  (forall (block : Block.t) (contents contents' : list Content) (r : completion unit),
      ListView.callback block contents = (r, contents') ->
      length contents + 1 < length contents' ->
      (Block.type block = Some "heading_2" /\ is_Some (Block.quote block) \/
       Block.type block = Some "quote" /\ is_Some (Block.code block)) /\
      api_shaped block = false) /\
  ListView.callback overloaded_heading [] =
    (Normal tt,
     [TextContent Heading2 (Some "Intro"); TextContent Quote (Some "Intro");
      CodeContent (Some "Intro") (Some "plain text")]).
Proof.
  split; [|split]; [| |reflexivity].
  - intros b cs Hfall Hshape. rewrite ListView_callback_api, Hfall by done.
    unfold falls_through, has_tag in Hfall.
    apply orb_true_iff in Hfall as [Htag|Htag]; apply bool_decide_eq_true in Htag;
      (destruct (spec_content_recognized b _ Hshape Htag) as (c & -> & Hc);
       [unfold recognized_tags; set_solver|]);
      exists c; by rewrite Hc.
  - intros [[tag|] p h2 h3 q c] cs cs' r Hrun Hlen; unfold ListView.callback in Hrun;
      simpl in Hrun; cycle 1.
    { injection Hrun as <- <-. lia. }
    unfold switch in Hrun.
    destruct (String.eqb_spec tag "paragraph") as [->|].
    { destruct p; injection Hrun as <- <-; rewrite ?length_app in Hlen; simpl in Hlen; lia. }
    destruct (String.eqb_spec tag "heading_2") as [->|].
    { destruct h2; [|injection Hrun as <- <-; lia].
      destruct q; [|injection Hrun as <- <-; rewrite ?length_app in Hlen; simpl in Hlen; lia].
      split; [left; eauto|].
      apply not_true_is_false. rewrite api_shaped_spec. simpl.
      intros (_ & _ & _ & Hq & _). by specialize (proj1 Hq ltac:(eauto)). }
    destruct (String.eqb_spec tag "quote") as [->|].
    { destruct q; [|injection Hrun as <- <-; lia].
      destruct c; [|injection Hrun as <- <-; rewrite ?length_app in Hlen; simpl in Hlen; lia].
      split; [right; eauto|].
      apply not_true_is_false. rewrite api_shaped_spec. simpl.
      intros (_ & _ & _ & _ & Hc). by specialize (proj1 Hc ltac:(eauto)). }
    destruct (String.eqb_spec tag "code") as [->|].
    { destruct c; injection Hrun as <- <-; rewrite ?length_app in Hlen; simpl in Hlen; lia. }
    injection Hrun as <- <-. lia.
Qed.

Lemma C2_fallthrough_effect_witness :
  falls_through quote_motto = true /\
  api_shaped quote_motto = true /\
  exists c, ListView.callback quote_motto [] = (Throw TypeError, [] ++ [c]) /\
            Block.type quote_motto = Some (content_type c).
Proof.
  split; [reflexivity|]. split; [reflexivity|].
  apply (proj1 C2_fallthrough_effect quote_motto []); reflexivity.
Defined.

(** ** Recognized and unrecognized tags *)

(** The single-post view maps every API-shaped block of a recognized tag to
    one record of that tag, and drops every other block. *)
Lemma SinglePost_callback_recognized (block : Block.t) (tag : string) (contents : list Content) :
  api_shaped block = true ->
  Block.type block = Some tag ->
  tag ∈ recognized_tags ->
  exists c, SinglePost.callback block contents = (Normal tt, contents ++ [c]) /\
            content_type c = tag.
Proof.
  intros Hshape Htag Hin.
  destruct (spec_content_recognized block tag Hshape Htag Hin) as (c & Hc & Hty).
  exists c. by rewrite SinglePost_callback_api, Hc.
Qed.

Lemma SinglePost_callback_unrecognized (block : Block.t) (contents : list Content) :
  api_shaped block = true ->
  (forall tag, Block.type block = Some tag -> tag ∉ recognized_tags) ->
  SinglePost.callback block contents = (Normal tt, contents).
Proof.
  intros Hshape Hno.
  rewrite SinglePost_callback_api, spec_content_unrecognized by done.
  apply f_equal, app_nil_r.
Qed.

(** C3. A [heading_3] block, a recognized type, becomes a [heading_3]
    record in the single-post view and is dropped by the list view, whose
    switch has no [heading_3] clause. *)
Theorem C3_list_view_drops_heading_3 (rich_text : list RichText) :
  api_shaped (text_block Heading3 rich_text) = true /\
  SinglePost.flattenBlocks [text_block Heading3 rich_text] =
    Normal [TextContent Heading3 (first_plain_text rich_text)] /\
  ListView.flattenBlocks [text_block Heading3 rich_text] = Normal [].
Proof. repeat split. Qed.



(** C7. An empty block list gives an empty content sequence in both views,
    also through [getPostContents] when the query returns no block. *)
Theorem C7_empty_blocks :
  ListView.flattenBlocks [] = Normal [] /\
  SinglePost.flattenBlocks [] = Normal [] /\
  forall (database : completion (list Page.t)) (post : Post.t),
    ListView.getPostContents (Client.mk database (fun _ => Normal [])) post = Normal [].
Proof. repeat split. Qed.

(** ** Throwing *)

(** C9. The list view's flattener throws on block lists the query can
    return: a [quote] block runs on into the [code] clause and reads
    [block.code.rich_text], a [heading_2] block runs on into the [quote]
    clause and reads [block.quote.rich_text]; neither member exists on the
    block, and [getPostContents] rejects. *)
Theorem C9_list_view_throws_on_fallthrough :
  ListView.callback quote_motto [] =
    (Throw TypeError, [TextContent Quote (Some "Less is more")]) /\
  ListView.flattenBlocks [quote_motto] = Throw TypeError /\
  ListView.flattenBlocks [paragraph_body; heading_intro; code_sample] = Throw TypeError /\
  forall (database : completion (list Page.t)) (post : Post.t),
    ListView.getPostContents
      (Client.mk database (fun _ => Normal [paragraph_body; heading_intro; code_sample]))
      post = Throw TypeError.
Proof.
  split; [reflexivity|]. split; [|split].
  - apply ListView_flattenBlocks_throws; repeat constructor.
  - apply ListView_flattenBlocks_throws; [repeat constructor|].
    apply Exists_cons_tl, Exists_cons_hd. reflexivity.
  - reflexivity.
Qed.

(** ** Field extraction *)

Lemma read_property_first (properties : gmap string Property.t) (name ty : string)
    (member : Property.t -> option (list RichText))
    (property : Property.t) (segment : RichText) (rest : list RichText) :
  properties !! name = Some property ->
  Property.type property = ty ->
  member property = Some (segment :: rest) ->
  read_property properties name ty member = Normal (Some (plain_text segment)).
Proof.
  intros Hp Hty Hm. unfold read_property. by rewrite Hp, Hty, String.eqb_refl, Hm.
Qed.

Lemma read_property_unreadable (properties : gmap string Property.t) (name ty : string)
    (member : Property.t -> option (list RichText)) :
  unreadable properties name ty member ->
  read_property properties name ty member = Normal None.
Proof.
  unfold read_property. intros [-> | (p & -> & [Hty | Hm])]; [done | |].
  - by destruct (String.eqb_spec (Property.type p) ty).
  - rewrite Hm. by destruct (String.eqb (Property.type p) ty).
Qed.

(** C4. For a page with a property bag: when [Name] is present with type
    [title] and has a first segment, both title extractions return that
    segment's plain text; when [Name] is absent, of another type, or without
    segments, both return [null]; they throw in neither case. *)
Theorem C4_title_extraction (page : Page.t) (properties : gmap string Property.t) :
  Page.properties page = Some properties ->
  (forall (name : Property.t) (segment : RichText) (rest : list RichText),
      properties !! "Name" = Some name ->
      Property.type name = "title" ->
      Property.title name = Some (segment :: rest) ->
      ListView.getTitle page = Normal (Some (plain_text segment)) /\
      SinglePost.title_of properties = Normal (Some (plain_text segment))) /\
  (unreadable properties "Name" "title" Property.title ->
      ListView.getTitle page = Normal None /\
      SinglePost.title_of properties = Normal None).
Proof.
  intros Hbag. unfold ListView.getTitle, SinglePost.title_of. rewrite Hbag. simpl.
  split.
  - intros name segment rest Hname Hty Htitle.
    by rewrite (read_property_first _ _ _ _ name segment rest).
  - intros Hun. by rewrite read_property_unreadable.
Qed.

Lemma C4_title_extraction_witness :
  (ListView.getTitle titled_page = Normal (Some "Hello") /\
   SinglePost.title_of titled_properties = Normal (Some "Hello")) /\
  (ListView.getTitle untitled_page = Normal None /\
   SinglePost.title_of untitled_properties = Normal None).
Proof.
  split.
  - apply (proj1 (C4_title_extraction titled_page titled_properties eq_refl)
             (Property.mk "title"
                (Some [{| plain_text := "Hello" |}; {| plain_text := ", world" |}]) None)
             {| plain_text := "Hello" |} [{| plain_text := ", world" |}]);
      reflexivity.
  - apply (proj2 (C4_title_extraction untitled_page untitled_properties eq_refl)).
    right. exists (Property.mk "title" (Some []) None).
    split; [reflexivity | right; reflexivity].
Defined.

(** ** Pages without title and slug *)

(** For a page whose [Name] and [Slug] are both unreadable (absent, of
    another type, or without segments): both extractors of the list view
    return [null], and [getPosts] builds the post with [title = null] and
    [slug = null]; in the single-post view, for API-shaped blocks,
    [getStaticProps] returns a post with [title = null] and [slug = null]
    and the component renders it with an empty title; nothing throws. A
    block with an empty rich-text array gets the text [null]. *)
Lemma missing_title_and_slug_null (page : Page.t) (properties : gmap string Property.t) :
  Page.properties page = Some properties ->
  unreadable properties "Name" "title" Property.title ->
  unreadable properties "Slug" "rich_text" Property.rich_text ->
  ListView.getTitle page = Normal None /\
  ListView.getSlug page = Normal None /\
  (forall (rest : list Page.t) (posts : list Post.t),
      ListView.getPosts_loop (page :: rest) posts =
        ListView.getPosts_loop rest
          (posts ++ [Post.mk (Page.id page) None None
                       (Page.created_time page) (Page.last_edited_time page) []])) /\
  (forall (notion : Client.t) (rest : list Page.t) (blocks : list Block.t),
      Client.databases_query notion = Normal (page :: rest) ->
      Client.blocks_children_list notion (Some (Page.id page)) = Normal blocks ->
      Forall (fun b => api_shaped b = true) blocks ->
      let post := Post.mk (Page.id page) None None
                    (Page.created_time page) (Page.last_edited_time page)
                    (spec_flatten blocks) in
      SinglePost.getStaticProps notion =
        Normal {| SinglePost.props := {| SinglePost.post := Some post |} |} /\
      SinglePost.Home {| SinglePost.post := Some post |} =
        Some (Fragment
                [Element "div" "wrapper"
                   [Element "div" "post" [Element "h1" "title" [Text None]]]])) /\
  (forall kind : TextKind,
      SinglePost.flattenBlocks [text_block kind []] = Normal [TextContent kind None]).
Proof.
  intros Hbag Hname Hslug.
  assert (Ht : ListView.getTitle page = Normal None).
  { unfold ListView.getTitle. rewrite Hbag. simpl. by apply read_property_unreadable. }
  assert (Hs : ListView.getSlug page = Normal None).
  { unfold ListView.getSlug. rewrite Hbag. simpl. by apply read_property_unreadable. }
  split; [done|]. split; [done|]. split; [|split].
  - intros rest posts. simpl. by rewrite Hbag, Ht, Hs.
  - intros notion rest blocks Hquery Hchildren Hshape post. split; [|done].
    unfold SinglePost.getStaticProps. rewrite Hquery. simpl. rewrite Hchildren. simpl.
    rewrite Hbag. unfold SinglePost.title_of, SinglePost.slug_of.
    rewrite !read_property_unreadable by done. simpl.
    by rewrite SinglePost_flattenBlocks_spec.
  - by intros [].
Qed.

Lemma missing_title_and_slug_null_example :
  ListView.getTitle untitled_page = Normal None /\
  ListView.getSlug untitled_page = Normal None /\
  SinglePost.getStaticProps (fixed_client [untitled_page] [quote_motto; code_sample]) =
    Normal {| SinglePost.props := {| SinglePost.post :=
      Some (Post.mk "page-2" None None
              (Some "2023-05-01T09:00:00.000Z") (Some "2023-05-01T09:00:00.000Z")
              [TextContent Quote (Some "Less is more");
               CodeContent (Some "x = 1") (Some "python")]) |} |}.
Proof.
  assert (Hname : unreadable untitled_properties "Name" "title" Property.title).
  { right. exists (Property.mk "title" (Some []) None).
    split; [reflexivity | right; reflexivity]. }
  assert (Hslug : unreadable untitled_properties "Slug" "rich_text" Property.rich_text).
  { right. exists (Property.mk "url" None None).
    split; [reflexivity | left; discriminate]. }
  pose proof (missing_title_and_slug_null untitled_page untitled_properties
                eq_refl Hname Hslug) as (Ht & Hs & _ & Hsingle & _).
  split; [exact Ht|]. split; [exact Hs|].
  apply (Hsingle (fixed_client [untitled_page] [quote_motto; code_sample]) []
           [quote_motto; code_sample]); [reflexivity | reflexivity |].
  repeat constructor.
Defined.

(** The list view's component throws on every list of posts, before
    anything of a post is read. *)
Lemma ListView_Home_unbound_post (format : option string -> string) (posts : list Post.t) :
  ListView.Home format {| ListView.posts := Some posts |} = Throw (ReferenceError "post").
Proof. reflexivity. Qed.

(** C6. A page whose [Name] has no segment and whose [Slug] is of another
    type, with one paragraph block. Building completes in both views with
    [title = null] and [slug = null], and the single-post view renders the
    post with an empty title. Rendering in the list view throws: the
    component's body reads [post], which it never binds (its prop is
    [posts]), and raises [ReferenceError]. *)
Theorem C6_list_view_render_throws :
  ListView.getTitle untitled_page = Normal None /\
  ListView.getSlug untitled_page = Normal None /\
  ListView.getStaticProps (fixed_client [untitled_page] [paragraph_body]) =
    Normal {| ListView.props := {| ListView.posts := Some [untitled_post] |};
              ListView.revalidate := 60 |} /\
  (forall format : option string -> string,
      ListView.Home format {| ListView.posts := Some [untitled_post] |} =
        Throw (ReferenceError "post")) /\
  SinglePost.getStaticProps (fixed_client [untitled_page] [paragraph_body]) =
    Normal {| SinglePost.props := {| SinglePost.post := Some untitled_post |} |} /\
  SinglePost.Home {| SinglePost.post := Some untitled_post |} =
    Some (Fragment
            [Element "div" "wrapper"
               [Element "div" "post" [Element "h1" "title" [Text None]]]]).
Proof.
  split; [reflexivity|]. split; [reflexivity|]. split; [reflexivity|].
  split; [intros format; apply ListView_Home_unbound_post|].
  split; reflexivity.
Qed.

(** ** The single-post view without a usable page *)

(** The block-children query comes first: when it rejects, so does
    [getStaticProps], whatever the database query returned. *)
Lemma SinglePost_getStaticProps_children_rejected
    (notion : Client.t) (database : list Page.t) (e : JsError) :
  Client.databases_query notion = Normal database ->
  Client.blocks_children_list notion (Page.id <$> head database) = Throw e ->
  SinglePost.getStaticProps notion = Throw e.
Proof.
  intros Hquery Hchildren. unfold SinglePost.getStaticProps.
  rewrite Hquery. simpl. by rewrite Hchildren.
Qed.

(** In the single-post view, once the two queries have returned: an
    empty result list gives [post = null]; a first result without a property
    bag gives the post with its id, four [null] fields and no contents. In
    both cases the result is the same for every list of blocks, also one on
    which the flattener would throw: no content is constructed. *)
Lemma SinglePost_getStaticProps_no_page (notion : Client.t) (blocks : list Block.t) :
  (Client.databases_query notion = Normal [] ->
   Client.blocks_children_list notion None = Normal blocks ->
   SinglePost.getStaticProps notion =
     Normal {| SinglePost.props := {| SinglePost.post := None |} |}) /\
  (forall (page : Page.t) (rest : list Page.t),
      Client.databases_query notion = Normal (page :: rest) ->
      Page.properties page = None ->
      Client.blocks_children_list notion (Some (Page.id page)) = Normal blocks ->
      SinglePost.getStaticProps notion =
        Normal {| SinglePost.props := {| SinglePost.post :=
          Some (Post.mk (Page.id page) None None None None []) |} |}).
Proof.
  split.
  - intros Hquery Hchildren. unfold SinglePost.getStaticProps.
    rewrite Hquery. simpl. by rewrite Hchildren.
  - intros page rest Hquery Hbag Hchildren. unfold SinglePost.getStaticProps.
    rewrite Hquery. simpl. rewrite Hchildren. simpl. by rewrite Hbag.
Qed.

Lemma SinglePost_getStaticProps_no_page_example :
  SinglePost.flattenBlocks [hollow_paragraph] = Throw TypeError /\
  SinglePost.getStaticProps (fixed_client [] [hollow_paragraph]) =
    Normal {| SinglePost.props := {| SinglePost.post := None |} |} /\
  SinglePost.getStaticProps (fixed_client [bare_page; titled_page] [hollow_paragraph]) =
    Normal {| SinglePost.props := {| SinglePost.post :=
      Some (Post.mk "page-3" None None None None []) |} |}.
Proof.
  split; [reflexivity|]. split.
  - apply (proj1 (SinglePost_getStaticProps_no_page (fixed_client [] [hollow_paragraph])
                    [hollow_paragraph])); reflexivity.
  - apply (proj2 (SinglePost_getStaticProps_no_page
                    (fixed_client [bare_page; titled_page] [hollow_paragraph])
                    [hollow_paragraph]) bare_page [titled_page]); reflexivity.
Defined.

(** C8. With an empty result list the single-post view does not reach its
    [post = null] return when the block-children query is rejected: that
    query is made first, with an undefined block id, and its rejection is
    the outcome of [getStaticProps]. When the query is fulfilled the result
    is [post = null], and a first result without a property bag gives the
    post with its id, four [null] fields and no contents, whatever the
    blocks are. *)
Theorem C8_empty_result_rejected :
  Client.databases_query empty_client = Normal [] /\
  SinglePost.getStaticProps empty_client = Throw (Rejected "validation_error") /\
  SinglePost.getStaticProps (fixed_client [] [hollow_paragraph]) =
    Normal {| SinglePost.props := {| SinglePost.post := None |} |} /\
  SinglePost.getStaticProps (fixed_client [bare_page; titled_page] [hollow_paragraph]) =
    Normal {| SinglePost.props := {| SinglePost.post :=
      Some (Post.mk "page-3" None None None None []) |} |}.
Proof. repeat split. Qed.

(** ** Pairing posts with their contents *)

Lemma Promise_all_Normal {A} (promises : list (completion A)) (results : list A) :
  Promise_all promises = Normal results <-> promises = Normal <$> results.
Proof.
  revert results. induction promises as [|p ps IH]; intros results; simpl.
  - split.
    + intros [= <-]. reflexivity.
    + destruct results; [done | discriminate].
  - destruct p as [a|e]; simpl.
    + destruct (Promise_all ps) as [others|e] eqn:E; simpl.
      * split.
        -- intros [= <-]. simpl. f_equal. by apply IH.
        -- destruct results as [|r rs]; [discriminate|]. simpl. intros [= -> Hps].
           apply IH in Hps. by injection Hps as ->.
      * split; [discriminate|].
        destruct results as [|r rs]; [discriminate|]. simpl. intros [= -> Hps].
        apply IH in Hps. discriminate.
    + split; [discriminate|]. destruct results; discriminate.
Qed.

Lemma Promise_all_length {A} (promises : list (completion A)) (results : list A) :
  Promise_all promises = Normal results -> length results = length promises.
Proof. intros ->%Promise_all_Normal. by rewrite length_fmap. Qed.

Lemma Promise_all_fulfilled {A B} (f : A -> completion B) (l : list A) :
  Forall (fun x => exists b, f x = Normal b) l ->
  exists results, Promise_all (map f l) = Normal results.
Proof.
  induction 1 as [|x l [b Hb] _ [results IH]]; simpl.
  - by eexists.
  - rewrite Hb, IH. simpl. by eexists.
Qed.

(** C10. In the list view, when every contents fetch is fulfilled,
    [getStaticProps] returns as many posts as [getPosts] gave, and the post
    at every index [i] is the post [getPosts] gave at [i] with [contents]
    set to the sequence the flattener returns on the blocks that the
    block-children query returns under that same post's id; its other five
    fields are as before. *)
Theorem C10_contents_paired (notion : Client.t) (posts : list Post.t) :
  ListView.getPosts notion = Normal posts ->
  Forall (fun post => exists contents,
            ListView.getPostContents notion post = Normal contents) posts ->
  exists posts',
    ListView.getStaticProps notion =
      Normal {| ListView.props := {| ListView.posts := Some posts' |};
                ListView.revalidate := 60 |} /\
    length posts' = length posts /\
    forall (i : nat) (post : Post.t),
      posts !! i = Some post ->
      exists (post' : Post.t) (blocks : list Block.t),
        posts' !! i = Some post' /\
        Client.blocks_children_list notion (Some (Post.id post)) = Normal blocks /\
        ListView.flattenBlocks blocks = Normal (Post.contents post') /\
        Post.id post' = Post.id post /\
        Post.title post' = Post.title post /\
        Post.slug post' = Post.slug post /\
        Post.createdTs post' = Post.createdTs post /\
        Post.lastEditedTs post' = Post.lastEditedTs post.
Proof.
  intros Hposts Hall.
  destruct (Promise_all_fulfilled _ _ Hall) as [contentsList Hlist].
  exists (ListView.assign_contents contentsList posts).
  unfold ListView.getStaticProps. rewrite Hposts. simpl.
  change (fun post => ListView.getPostContents notion post)
    with (ListView.getPostContents notion).
  rewrite Hlist. simpl.
  split; [reflexivity|]. split; [apply length_imap|].
  intros i post Hi. apply Promise_all_Normal in Hlist.
  assert (Hfetch : ListView.getPostContents notion post
                   = Normal (default [] (contentsList !! i))).
  { apply (f_equal (fun l => l !! i)) in Hlist.
    rewrite !list_lookup_fmap, Hi in Hlist. simpl in Hlist.
    destruct (contentsList !! i); simpl in *; [congruence | discriminate]. }
  unfold ListView.getPostContents in Hfetch.
  destruct (Client.blocks_children_list notion (Some (Post.id post)))
    as [blocks|e] eqn:Hquery; [|discriminate].
  simpl in Hfetch.
  exists (Post.set_contents (default [] (contentsList !! i)) post), blocks.
  unfold ListView.assign_contents. rewrite list_lookup_imap, Hi. simpl.
  repeat split. exact Hfetch.
Qed.

Lemma C10_contents_paired_witness :
  exists posts',
    ListView.getStaticProps per_post_client =
      Normal {| ListView.props := {| ListView.posts := Some posts' |};
                ListView.revalidate := 60 |} /\
    length posts' = 2 /\
    Post.contents <$> posts' =
      [[TextContent Paragraph (Some "Body"); CodeContent (Some "x = 1") (Some "python")];
       [TextContent Paragraph (Some "Body")]].
Proof.
  destruct (C10_contents_paired per_post_client
              [Post.mk "page-1" (Some "Hello") (Some "hello")
                 (Some "2023-04-01T09:00:00.000Z") (Some "2023-04-02T10:30:00.000Z") [];
               Post.mk "page-2" None None
                 (Some "2023-05-01T09:00:00.000Z") (Some "2023-05-01T09:00:00.000Z") []])
    as (posts' & Hrun & Hlen & Hall).
  - reflexivity.
  - repeat constructor; eexists; reflexivity.
  - exists posts'. split; [exact Hrun|]. split; [exact Hlen|].
    destruct (Hall 0 _ eq_refl) as (p0 & b0 & H0 & Hq0 & Hf0 & _).
    destruct (Hall 1 _ eq_refl) as (p1 & b1 & H1 & Hq1 & Hf1 & _).
    injection Hq0 as <-. injection Hq1 as <-.
    injection Hf0 as Hc0. injection Hf1 as Hc1.
    destruct posts' as [|q0 [|q1 [|q2 rest]]]; try discriminate Hlen.
    injection H0 as ->. injection H1 as ->.
    simpl. by rewrite <- Hc0, <- Hc1.
Defined.

(** * Further properties of the two pages *)

(** ** Slug extraction and [getPosts] *)

Lemma read_property_text (properties : gmap string Property.t) (name ty : string)
    (member : Property.t -> option (list RichText)) :
  member_present properties name ty member = true ->
  read_property properties name ty member =
    Normal (property_text properties name ty member).
Proof.
  unfold member_present, read_property, property_text.
  destruct (properties !! name) as [p|]; simpl; [|done].
  destruct (String.eqb (Property.type p) ty); [|done].
  intros [segments ->]%bool_decide_eq_true. reflexivity.
Qed.

Lemma read_property_throws (properties : gmap string Property.t) (name ty : string)
    (member : Property.t -> option (list RichText)) :
  member_present properties name ty member = false ->
  read_property properties name ty member = Throw TypeError.
Proof.
  unfold member_present, read_property.
  destruct (properties !! name) as [p|]; simpl; [|done].
  destruct (String.eqb (Property.type p) ty); [|done].
  intros Hno%bool_decide_eq_false. destruct (member p); [|done].
  exfalso. apply Hno. by eexists.
Qed.

(** X1. For a page with a property bag: when [Slug] is present with type
    [rich_text] and has a first segment, [getSlug] and the single-post
    view's inline extraction return that segment's plain text; when [Slug]
    is absent, of another type, or without segments, both return [null]. *)
Theorem getSlug_first_segment (page : Page.t) (properties : gmap string Property.t) :
  Page.properties page = Some properties ->
  (forall (slug : Property.t) (segment : RichText) (rest : list RichText),
      properties !! "Slug" = Some slug ->
      Property.type slug = "rich_text" ->
      Property.rich_text slug = Some (segment :: rest) ->
      ListView.getSlug page = Normal (Some (plain_text segment)) /\
      SinglePost.slug_of properties = Normal (Some (plain_text segment))) /\
  (unreadable properties "Slug" "rich_text" Property.rich_text ->
      ListView.getSlug page = Normal None /\
      SinglePost.slug_of properties = Normal None).
Proof.
  intros Hbag. unfold ListView.getSlug, SinglePost.slug_of. rewrite Hbag. simpl.
  split.
  - intros slug segment rest Hslug Hty Hsegments.
    by rewrite (read_property_first _ _ _ _ slug segment rest).
  - intros Hun. by rewrite read_property_unreadable.
Qed.

Lemma getSlug_first_segment_witness :
  (ListView.getSlug titled_page = Normal (Some "hello") /\
   SinglePost.slug_of titled_properties = Normal (Some "hello")) /\
  (ListView.getSlug untitled_page = Normal None /\
   SinglePost.slug_of untitled_properties = Normal None).
Proof.
  split.
  - apply (proj1 (getSlug_first_segment titled_page titled_properties eq_refl)
             (Property.mk "rich_text" None (Some [{| plain_text := "hello" |}]))
             {| plain_text := "hello" |} []);
      reflexivity.
  - apply (proj2 (getSlug_first_segment untitled_page untitled_properties eq_refl)).
    right. exists (Property.mk "url" None None).
    split; [reflexivity | left; discriminate].
Defined.

Lemma getPosts_loop_shaped (results : list Page.t) (posts : list Post.t) :
  Forall (fun page => page_shaped page = true) results ->
  ListView.getPosts_loop results posts = Normal (posts ++ omap post_of_page results).
Proof.
  intros Hall. revert posts. induction Hall as [|page results Hpage _ IH]; intros posts.
  - simpl. by rewrite app_nil_r.
  - simpl. unfold page_shaped in Hpage. unfold post_of_page at 1.
    destruct (Page.properties page) as [properties|] eqn:Hbag; simpl.
    + apply andb_true_iff in Hpage as [Hname Hslug].
      unfold ListView.getTitle, ListView.getSlug. rewrite Hbag. simpl.
      rewrite !read_property_text by done. simpl.
      rewrite IH, <- app_assoc. reflexivity.
    + apply IH.
Qed.

Lemma post_of_page_ids (results : list Page.t) :
  Post.id <$> omap post_of_page results =
    Page.id <$> filter (fun page => is_Some (Page.properties page)) results.
Proof.
  induction results as [|page results IH]; [done|].
  rewrite filter_cons.
  destruct (decide (is_Some (Page.properties page))) as [[properties Hbag]|Hno].
  - simpl. unfold post_of_page at 1. rewrite Hbag. simpl. f_equal. exact IH.
  - simpl. unfold post_of_page at 1.
    destruct (Page.properties page); [by destruct Hno | exact IH].
Qed.

(** X2. When the database query is fulfilled and no page has a typed
    property without its member, [getPosts] returns: one post per result
    that has a property bag, in the order of the results, with the page's id
    and timestamps, the extracted title and slug, and no contents; results
    without a property bag are skipped. *)
Theorem getPosts_posts (notion : Client.t) (results : list Page.t) :
  Client.databases_query notion = Normal results ->
  Forall (fun page => page_shaped page = true) results ->
  exists posts,
    ListView.getPosts notion = Normal posts /\
    posts = omap post_of_page results /\
    Post.id <$> posts =
      Page.id <$> filter (fun page => is_Some (Page.properties page)) results /\
    Forall (fun post => Post.contents post = []) posts /\
    length posts <= length results.
Proof.
  intros Hquery Hall. exists (omap post_of_page results).
  unfold ListView.getPosts. rewrite Hquery. simpl.
  rewrite getPosts_loop_shaped by done. simpl.
  split; [done|]. split; [done|]. split; [apply post_of_page_ids|]. split.
  - clear. induction results as [|page results IH]; simpl; [constructor|].
    unfold post_of_page at 1. destruct (Page.properties page); simpl; [|exact IH].
    constructor; [reflexivity | exact IH].
  - clear. induction results as [|page results IH]; [done|].
    change (omap post_of_page (page :: results))
      with (match post_of_page page with
            | Some post => post :: omap post_of_page results
            | None => omap post_of_page results
            end).
    destruct (post_of_page page); simpl; lia.
Qed.

Lemma getPosts_posts_witness :
  exists posts,
    ListView.getPosts two_post_client = Normal posts /\
    Post.id <$> posts = ["page-1"; "page-2"].
Proof.
  destruct (getPosts_posts two_post_client [titled_page; bare_page; untitled_page])
    as (posts & Hrun & _ & Hids & _).
  - reflexivity.
  - repeat constructor.
  - exists posts. split; [exact Hrun | exact Hids].
Defined.

(** X3. One page whose [Name] is typed [title] without a [title] member,
    or whose [Slug] is typed [rich_text] without a [rich_text] member, makes
    [getPosts] throw [TypeError]: no post of the other pages is returned. *)
Theorem getPosts_malformed_page (notion : Client.t) (results : list Page.t) :
  Client.databases_query notion = Normal results ->
  Exists (fun page => page_shaped page = false) results ->
  ListView.getPosts notion = Throw TypeError.
Proof.
  intros Hquery Hex. unfold ListView.getPosts. rewrite Hquery. simpl. clear Hquery.
  generalize (@nil Post.t) as posts.
  induction results as [|page results IH]; intros posts; [by inversion Hex|].
  simpl. destruct (page_shaped page) eqn:Hshape.
  - assert (Hrest : Exists (fun page => page_shaped page = false) results).
    { inversion Hex; subst; [congruence | done]. }
    unfold page_shaped in Hshape.
    destruct (Page.properties page) as [properties|] eqn:Hbag; [|by apply IH].
    apply andb_true_iff in Hshape as [Hname Hslug].
    unfold ListView.getTitle, ListView.getSlug. rewrite Hbag. simpl.
    rewrite !read_property_text by done. simpl. by apply IH.
  - unfold page_shaped in Hshape.
    destruct (Page.properties page) as [properties|] eqn:Hbag; [|done].
    unfold ListView.getTitle, ListView.getSlug. rewrite Hbag. simpl.
    apply andb_false_iff in Hshape as [Hname | Hslug].
    + by rewrite (read_property_throws _ _ _ _ Hname).
    + rewrite (read_property_throws _ _ _ _ Hslug).
      destruct (member_present properties "Name" "title" Property.title) eqn:Hname.
      * by rewrite read_property_text.
      * by rewrite read_property_throws.
Qed.

Lemma getPosts_malformed_page_witness :
  ListView.getPosts (fixed_client [titled_page; broken_page] []) = Throw TypeError.
Proof.
  apply (getPosts_malformed_page (fixed_client [titled_page; broken_page] [])
           [titled_page; broken_page]).
  - reflexivity.
  - apply Exists_cons_tl, Exists_cons_hd. reflexivity.
Defined.

(** ** The flatteners on arbitrary block objects *)

Lemma forEach_app {S A} (f : A -> Eff S unit) (l1 l2 : list A) (s : S) :
  forEach f (l1 ++ l2) s =
    match forEach f l1 s with
    | (Normal _, s') => forEach f l2 s'
    | (Throw e, s') => (Throw e, s')
    end.
Proof.
  revert s. induction l1 as [|x l1 IH]; intros s; simpl; [done|].
  unfold mbind, Eff_bind. destruct (f x s) as [[[]|e] s']; [apply IH | done].
Qed.

Lemma appending_ret {A B} (a : A) : appending (mret a : Eff (list B) A).
Proof. exists (Normal a), []. intros s. unfold mret, Eff_ret. by rewrite app_nil_r. Qed.

Lemma appending_lift {A B} (c : completion A) : appending (lift c : Eff (list B) A).
Proof. exists c, []. intros s. unfold lift. by rewrite app_nil_r. Qed.

Lemma appending_push {B} (x : B) : appending (push x).
Proof. exists (Normal tt), [x]. reflexivity. Qed.

Lemma appending_bind {A A' B} (m : Eff (list B) A) (k : A -> Eff (list B) A') :
  appending m -> (forall a, appending (k a)) -> appending (m ≫= k).
Proof.
  intros ([a|e] & d & Hm) Hk.
  - destruct (Hk a) as (r & d' & Hka). exists r, (d ++ d'). intros s.
    unfold mbind, Eff_bind. by rewrite Hm, Hka, app_assoc.
  - exists (Throw e), d. intros s. unfold mbind, Eff_bind. by rewrite Hm.
Qed.

Lemma appending_run_clauses {B} (cs : list (clause (list B))) :
  Forall (fun cl => appending cl.2) cs -> appending (run_clauses cs).
Proof.
  induction 1 as [|[label body] cs Hbody _ IH]; simpl; [apply appending_ret|].
  apply appending_bind; [exact Hbody|]. intros []; [apply appending_ret | exact IH].
Qed.

Lemma appending_switch {B} (tag : string) (cs : list (clause (list B))) :
  Forall (fun cl => appending cl.2) cs -> appending (switch tag cs).
Proof.
  induction 1 as [|[label body] cs Hbody Hcs IH]; simpl; [apply appending_ret|].
  destruct (String.eqb tag label); [|exact IH].
  apply (appending_run_clauses ((label, body) :: cs)). by constructor.
Qed.

Lemma appending_push_text (kind : TextKind) (body : option TextBody.t) :
  appending (push_text kind body).
Proof.
  apply appending_bind; [apply appending_lift | intros; apply appending_push].
Qed.

Lemma appending_push_code (body : option CodeBody.t) : appending (push_code body).
Proof.
  apply appending_bind; [apply appending_lift | intros; apply appending_push].
Qed.

Lemma forEach_appends {A B} (f : A -> Eff (list B) unit) (l : list A) :
  appends f -> appending (forEach f l).
Proof.
  intros Hf. induction l as [|x l IH]; simpl; [apply appending_ret|].
  apply appending_bind; [apply Hf | intros; exact IH].
Qed.

Lemma collect_app {A} (f : A -> Eff (list Content) unit) (l1 l2 : list A) :
  appends f ->
  collect f (l1 ++ l2) =
    (c1 ← collect f l1; c2 ← collect f l2; mret (c1 ++ c2)).
Proof.
  intros Hf. unfold collect. rewrite forEach_app.
  destruct (forEach_appends f l1 Hf) as (r1 & d1 & H1).
  destruct (forEach_appends f l2 Hf) as (r2 & d2 & H2).
  rewrite (H1 []). simpl. destruct r1 as [[]|e]; simpl; [|done].
  rewrite (H2 d1), (H2 []). simpl. by destruct r2.
Qed.

Ltac clauses_append :=
  repeat constructor; simpl;
  (apply appending_bind;
   [first [apply appending_push_text | apply appending_push_code]
   | intros; apply appending_ret]).

Lemma ListView_callback_appends : appends ListView.callback.
Proof.
  intros block. unfold ListView.callback.
  destruct (Block.type block) as [tag|]; [|apply appending_ret].
  apply appending_switch. clauses_append.
Qed.

Lemma SinglePost_callback_appends : appends SinglePost.callback.
Proof.
  intros block. unfold SinglePost.callback.
  destruct (Block.type block) as [tag|]; [|apply appending_ret].
  apply appending_switch. clauses_append.
Qed.

(** X4. In both views, flattening a concatenation is flattening the two
    parts and concatenating the results, for all block objects: what earlier
    blocks contributed never changes what a later block contributes, and a
    throw in either part is the throw of the whole (the first part's, when
    both throw). *)
Theorem flattenBlocks_app (blocks1 blocks2 : list Block.t) :
  ListView.flattenBlocks (blocks1 ++ blocks2) =
    (c1 ← ListView.flattenBlocks blocks1;
     c2 ← ListView.flattenBlocks blocks2;
     mret (c1 ++ c2)) /\
  SinglePost.flattenBlocks (blocks1 ++ blocks2) =
    (c1 ← SinglePost.flattenBlocks blocks1;
     c2 ← SinglePost.flattenBlocks blocks2;
     mret (c1 ++ c2)).
Proof.
  split.
  - apply collect_app, ListView_callback_appends.
  - apply collect_app, SinglePost_callback_appends.
Qed.

(** ** When the flatteners throw *)

(** Splits on the tag of a block along the labels of the goal. *)
Ltac tag_cases tag :=
  repeat match goal with
  | |- context [String.eqb tag ?lit] =>
      destruct (String.eqb_spec tag lit); [subst tag|]
  end.

Lemma spec_content_type (block : Block.t) (c : Content) :
  spec_content block = Some c -> Block.type block = Some (content_type c).
Proof.
  destruct block as [[tag|] p h2 h3 q cd]; unfold spec_content; simpl; [|done].
  tag_cases tag; try done;
    match goal with
    | |- _ <$> ?o = _ -> _ => destruct o; simpl; [by intros [= <-] | done]
    end.
Qed.

Lemma spec_content_own (block : Block.t) (tag : string) :
  own_payload block = true ->
  Block.type block = Some tag ->
  tag ∈ recognized_tags ->
  is_Some (spec_content block).
Proof.
  destruct block as [ty p h2 h3 q cd]; unfold own_payload, spec_content; simpl.
  intros Hown -> Hin. unfold recognized_tags in Hin. rewrite !elem_of_cons in Hin.
  destruct Hin as [->|[->|[->|[->|[->|Hin]]]]]; simpl in *;
    [apply bool_decide_eq_true in Hown as [body ->]; simpl; eauto ..
    | by apply elem_of_nil in Hin].
Qed.

Lemma SinglePost_callback_own (block : Block.t) (contents : list Content) :
  SinglePost.callback block contents =
    if own_payload block then (Normal tt, contents ++ option_list (spec_content block))
    else (Throw TypeError, contents).
Proof.
  destruct block as [[tag|] p h2 h3 q cd];
    unfold SinglePost.callback, own_payload, spec_content, switch; simpl.
  - tag_cases tag;
      try match goal with
      | |- context [bool_decide (is_Some ?o)] => destruct o; reflexivity
      end.
    by rewrite app_nil_r.
  - unfold mret, Eff_ret. by rewrite app_nil_r.
Qed.

Lemma SinglePost_flattenBlocks_own (blocks : list Block.t) :
  Forall (fun b => own_payload b = true) blocks ->
  SinglePost.flattenBlocks blocks = Normal (spec_flatten blocks).
Proof.
  intros Hall. unfold SinglePost.flattenBlocks, collect, spec_flatten.
  rewrite (forEach_omap _ spec_content); [done|].
  intros b s Hb. rewrite SinglePost_callback_own.
  by rewrite (proj1 (Forall_forall _ _) Hall b Hb).
Qed.

Lemma SinglePost_flattenBlocks_hollow (blocks : list Block.t) :
  Exists (fun b => own_payload b = false) blocks ->
  SinglePost.flattenBlocks blocks = Throw TypeError.
Proof.
  intros (x & Hx & Hbad)%Exists_exists.
  destruct (forEach_throw SinglePost.callback blocks x [] TypeError) as [s Hs].
  - done.
  - intros y s' _. rewrite SinglePost_callback_own. destruct (own_payload y); eauto.
  - intros s'. rewrite SinglePost_callback_own, Hbad. eauto.
  - unfold SinglePost.flattenBlocks, collect. by rewrite Hs.
Qed.

(** X5. The single-post view's flattener on arbitrary block objects: when
    every block of a recognized tag has the payload member of that name, it
    returns the specification's sequence; when some block of a recognized
    tag lacks it, it throws [TypeError]. *)
Theorem SinglePost_flattenBlocks_total (blocks : list Block.t) :
  (Forall (fun b => own_payload b = true) blocks ->
   SinglePost.flattenBlocks blocks = Normal (spec_flatten blocks)) /\
  (Exists (fun b => own_payload b = false) blocks ->
   SinglePost.flattenBlocks blocks = Throw TypeError).
Proof.
  split; [apply SinglePost_flattenBlocks_own | apply SinglePost_flattenBlocks_hollow].
Qed.

Lemma SinglePost_flattenBlocks_total_witness :
  SinglePost.flattenBlocks [overloaded_heading; quote_motto] =
    Normal [TextContent Heading2 (Some "Intro"); TextContent Quote (Some "Less is more")] /\
  SinglePost.flattenBlocks [paragraph_body; hollow_paragraph; code_sample] = Throw TypeError.
Proof.
  split.
  - apply (proj1 (SinglePost_flattenBlocks_total [overloaded_heading; quote_motto])).
    repeat constructor.
  - apply (proj2 (SinglePost_flattenBlocks_total
                    [paragraph_body; hollow_paragraph; code_sample])).
    apply Exists_cons_tl, Exists_cons_hd. reflexivity.
Defined.

Lemma falls_through_dichotomy (blocks : list Block.t) :
  Forall (fun b => falls_through b = false) blocks \/
  Exists (fun b => falls_through b = true) blocks.
Proof.
  induction blocks as [|b blocks [IH|IH]].
  - left. constructor.
  - destruct (falls_through b) eqn:E.
    + right. by apply Exists_cons_hd.
    + left. by constructor.
  - right. by apply Exists_cons_tl.
Qed.

(** X6. On API-shaped blocks the list view's flattener throws [TypeError]
    exactly when the list holds a [heading_2] or [quote] block, and returns
    a content sequence exactly when it holds none. *)
Theorem ListView_flattenBlocks_throws_iff (blocks : list Block.t) :
  Forall (fun b => api_shaped b = true) blocks ->
  (ListView.flattenBlocks blocks = Throw TypeError <->
   Exists (fun b => falls_through b = true) blocks) /\
  ((exists contents, ListView.flattenBlocks blocks = Normal contents) <->
   Forall (fun b => falls_through b = false) blocks).
Proof.
  intros Hshape. split; split.
  - intros Hthrow. destruct (falls_through_dichotomy blocks) as [Hno|Hex]; [|done].
    rewrite ListView_flattenBlocks_no_fallthrough in Hthrow by done. discriminate.
  - by apply ListView_flattenBlocks_throws.
  - intros [contents Hrun].
    destruct (falls_through_dichotomy blocks) as [Hno|Hex]; [done|].
    rewrite ListView_flattenBlocks_throws in Hrun by done. discriminate.
  - intros Hno. eexists. by apply ListView_flattenBlocks_no_fallthrough.
Qed.

Lemma ListView_flattenBlocks_throws_iff_witness :
  (ListView.flattenBlocks [paragraph_body; quote_motto] = Throw TypeError <->
   Exists (fun b => falls_through b = true) [paragraph_body; quote_motto]) /\
  ((exists contents, ListView.flattenBlocks [paragraph_body; quote_motto] = Normal contents) <->
   Forall (fun b => falls_through b = false) [paragraph_body; quote_motto]).
Proof.
  apply (ListView_flattenBlocks_throws_iff [paragraph_body; quote_motto]).
  repeat constructor.
Defined.

(** ** The types of the flattened records *)

(** X7. Whenever the list view's flattener returns on API-shaped blocks,
    every record of the sequence is a [paragraph] or a [code] record: no
    [heading_2], [heading_3] or [quote] record ever reaches the posts of the
    list view. *)
Theorem ListView_flattenBlocks_types (blocks : list Block.t) (contents : list Content) :
  Forall (fun b => api_shaped b = true) blocks ->
  ListView.flattenBlocks blocks = Normal contents ->
  Forall (fun c => content_type c = "paragraph" \/ content_type c = "code") contents.
Proof.
  intros Hshape Hrun.
  destruct (falls_through_dichotomy blocks) as [Hno|Hex]; cycle 1.
  { rewrite ListView_flattenBlocks_throws in Hrun by done. discriminate. }
  rewrite ListView_flattenBlocks_no_fallthrough in Hrun by done.
  injection Hrun as <-. apply Forall_forall. intros c Hc.
  unfold spec_flatten in Hc. apply list_elem_of_omap in Hc as (b & Hb & Hcontent).
  apply list_elem_of_filter in Hb as [Hh3 Hb].
  pose proof (proj1 (Forall_forall _ _) Hno b Hb) as Hfall.
  apply spec_content_type in Hcontent as Htag.
  unfold falls_through, has_tag in Hfall, Hh3.
  apply orb_false_iff in Hfall as [Hh2 Hq].
  apply bool_decide_eq_false in Hh2, Hq, Hh3.
  destruct c as [[] text|text language]; simpl in *; auto; congruence.
Qed.

Lemma ListView_flattenBlocks_types_witness :
  Forall (fun c => content_type c = "paragraph" \/ content_type c = "code")
    [TextContent Paragraph (Some "Body"); CodeContent (Some "x = 1") (Some "python")].
Proof.
  apply (ListView_flattenBlocks_types
           [paragraph_body; subheading_setup; code_sample; other_block "divider"]).
  - repeat constructor.
  - reflexivity.
Defined.

(** X8. In the single-post view, on blocks that have the payload of their
    tag, the types of the flattened records are the recognized tags of the
    blocks, in the order of the blocks: one record per recognized block,
    none for a block of another tag or without a tag. *)
Theorem SinglePost_flattenBlocks_types (blocks : list Block.t) :
  Forall (fun b => own_payload b = true) blocks ->
  exists contents,
    SinglePost.flattenBlocks blocks = Normal contents /\
    content_type <$> contents =
      filter (fun tag => tag ∈ recognized_tags) (omap Block.type blocks).
Proof.
  intros Hown. exists (spec_flatten blocks).
  split; [by apply SinglePost_flattenBlocks_own|].
  unfold spec_flatten. induction Hown as [|b blocks Hb _ IH]; [done|].
  change (omap spec_content (b :: blocks))
    with (match spec_content b with
          | Some c => c :: omap spec_content blocks
          | None => omap spec_content blocks
          end).
  change (omap Block.type (b :: blocks))
    with (match Block.type b with
          | Some tag => tag :: omap Block.type blocks
          | None => omap Block.type blocks
          end).
  destruct (Block.type b) as [tag|] eqn:Htag.
  - rewrite filter_cons. destruct (decide (tag ∈ recognized_tags)) as [Hin|Hout].
    + destruct (spec_content_own b tag Hb Htag Hin) as [c Hc]. rewrite Hc.
      apply spec_content_type in Hc as Hty. rewrite Htag in Hty.
      injection Hty as ->. simpl. f_equal. exact IH.
    + rewrite spec_content_unrecognized; [exact IH|].
      intros tag' Htag'. rewrite Htag in Htag'. by injection Htag' as <-.
  - rewrite spec_content_unrecognized; [exact IH|]. intros tag' Htag'.
    rewrite Htag in Htag'. discriminate.
Qed.

Lemma SinglePost_flattenBlocks_types_witness :
  exists contents,
    SinglePost.flattenBlocks
      [heading_intro; other_block "image"; partial_block; quote_motto; code_sample]
      = Normal contents /\
    content_type <$> contents = ["heading_2"; "quote"; "code"].
Proof.
  apply (SinglePost_flattenBlocks_types
           [heading_intro; other_block "image"; partial_block; quote_motto; code_sample]).
  repeat constructor.
Defined.

(** ** [getStaticProps] of the list view *)

Lemma Promise_all_rejected {A} (promises : list (completion A)) :
  Exists (fun p => exists e, p = Throw e) promises ->
  exists e, Promise_all promises = Throw e.
Proof.
  induction 1 as [p ps [e ->]|p ps _ [e IH]]; simpl.
  - by exists e.
  - destruct p as [a|e']; simpl; [|by eexists]. rewrite IH. simpl. by eexists.
Qed.

Lemma Promise_all_throw {A} (promises : list (completion A)) (e : JsError) :
  Forall (fun p => (exists a, p = Normal a) \/ p = Throw e) promises ->
  Exists (fun p => p = Throw e) promises ->
  Promise_all promises = Throw e.
Proof.
  induction 1 as [|p ps Hp Hps IH]; intros Hex; [by inversion Hex|].
  simpl. destruct Hp as [[a ->] | ->]; [|done]. simpl.
  rewrite IH; [done|]. inversion Hex; subst; [discriminate | done].
Qed.

(** X9. The list view builds no partial page: when the database query is
    rejected, [getStaticProps] is rejected with the same error; when the
    posts are built and the contents fetch of at least one of them is
    rejected or throws, [getStaticProps] is rejected as well. *)
Theorem ListView_getStaticProps_rejected (notion : Client.t) :
  (forall e, Client.databases_query notion = Throw e ->
             ListView.getStaticProps notion = Throw e) /\
  (forall posts,
      ListView.getPosts notion = Normal posts ->
      Exists (fun post => exists e, ListView.getPostContents notion post = Throw e) posts ->
      exists e, ListView.getStaticProps notion = Throw e).
Proof.
  split.
  - intros e Hquery. unfold ListView.getStaticProps, ListView.getPosts.
    by rewrite Hquery.
  - intros posts Hposts Hex. unfold ListView.getStaticProps. rewrite Hposts. simpl.
    destruct (Promise_all_rejected
                (map (fun post => ListView.getPostContents notion post) posts))
      as [e He].
    + apply Exists_exists in Hex as (post & Hin & e & He).
      apply Exists_exists. exists (Throw e). split; [|by eexists].
      rewrite <- He. apply (list_elem_of_fmap_2 (ListView.getPostContents notion)), Hin.
    + exists e. by rewrite He.
Qed.

Lemma ListView_getStaticProps_rejected_witness :
  ListView.getStaticProps offline_client = Throw (Rejected "ECONNREFUSED") /\
  exists e,
    ListView.getStaticProps
      (Client.mk (Normal [titled_page; untitled_page])
         (fun block_id =>
            if bool_decide (block_id = Some "page-2") then Throw (Rejected "rate_limited")
            else Normal [paragraph_body])) = Throw e.
Proof.
  split.
  - apply (proj1 (ListView_getStaticProps_rejected offline_client)). reflexivity.
  - apply (proj2 (ListView_getStaticProps_rejected _)
             [Post.mk "page-1" (Some "Hello") (Some "hello")
                (Some "2023-04-01T09:00:00.000Z") (Some "2023-04-02T10:30:00.000Z") [];
              Post.mk "page-2" None None
                (Some "2023-05-01T09:00:00.000Z") (Some "2023-05-01T09:00:00.000Z") []]).
    + reflexivity.
    + apply Exists_cons_tl, Exists_cons_hd. eexists. reflexivity.
Defined.

(** X10. One [heading_2] or [quote] block in the blocks of any one post
    makes the whole list view fail: when all block queries are fulfilled
    with API-shaped blocks and the blocks of some post hold such a block,
    [getStaticProps] throws [TypeError], whatever the other posts hold. *)
Theorem ListView_getStaticProps_poisoned (notion : Client.t) (posts : list Post.t) :
  ListView.getPosts notion = Normal posts ->
  Forall (fun post => exists blocks,
            Client.blocks_children_list notion (Some (Post.id post)) = Normal blocks /\
            Forall (fun b => api_shaped b = true) blocks) posts ->
  Exists (fun post => exists blocks,
            Client.blocks_children_list notion (Some (Post.id post)) = Normal blocks /\
            Exists (fun b => falls_through b = true) blocks) posts ->
  ListView.getStaticProps notion = Throw TypeError.
Proof.
  intros Hposts Hall Hex. unfold ListView.getStaticProps. rewrite Hposts. simpl.
  rewrite (Promise_all_throw _ TypeError); [done | |].
  - apply Forall_fmap. eapply Forall_impl; [exact Hall|].
    intros post (blocks & Hquery & Hshape). simpl.
    unfold ListView.getPostContents. rewrite Hquery. simpl.
    destruct (falls_through_dichotomy blocks) as [Hno|Hfall].
    + left. eexists. by apply ListView_flattenBlocks_no_fallthrough.
    + right. by apply ListView_flattenBlocks_throws.
  - apply Exists_exists in Hex as (post & Hin & blocks & Hquery & Hfall).
    apply Exists_exists. exists (ListView.getPostContents notion post). split.
    + apply (list_elem_of_fmap_2 (ListView.getPostContents notion)), Hin.
    + destruct (proj1 (Forall_forall _ _) Hall post Hin) as (blocks' & Hquery' & Hshape).
      rewrite Hquery in Hquery'. injection Hquery' as <-.
      unfold ListView.getPostContents. rewrite Hquery. simpl.
      by apply ListView_flattenBlocks_throws.
Qed.

Lemma ListView_getStaticProps_poisoned_witness :
  ListView.getStaticProps two_post_client = Throw TypeError.
Proof.
  apply (ListView_getStaticProps_poisoned two_post_client
           [Post.mk "page-1" (Some "Hello") (Some "hello")
              (Some "2023-04-01T09:00:00.000Z") (Some "2023-04-02T10:30:00.000Z") [];
            Post.mk "page-2" None None
              (Some "2023-05-01T09:00:00.000Z") (Some "2023-05-01T09:00:00.000Z") []]).
  - reflexivity.
  - repeat constructor; eexists; (split; [reflexivity | repeat constructor]).
  - apply Exists_cons_tl, Exists_cons_hd. eexists. split; [reflexivity|].
    apply Exists_cons_hd. reflexivity.
Defined.

Lemma getPosts_loop_ids (results : list Page.t) (acc posts : list Post.t) :
  ListView.getPosts_loop results acc = Normal posts ->
  Post.id <$> posts =
    (Post.id <$> acc)
    ++ (Page.id <$> filter (fun page => is_Some (Page.properties page)) results).
Proof.
  revert acc. induction results as [|page results IH]; intros acc; simpl.
  - intros [= <-]. by rewrite app_nil_r.
  - rewrite filter_cons.
    destruct (decide (is_Some (Page.properties page))) as [[properties Hbag]|Hno].
    + rewrite Hbag. destruct (ListView.getTitle page) as [title|e]; [|discriminate].
      destruct (ListView.getSlug page) as [slug|e]; [|discriminate]. simpl.
      intros Hrun%IH. rewrite Hrun, fmap_app, <- app_assoc. reflexivity.
    + destruct (Page.properties page); [by destruct Hno; eauto | apply IH].
Qed.

Lemma assign_contents_ids (contentsList : list (list Content)) (posts : list Post.t) :
  Post.id <$> ListView.assign_contents contentsList posts = Post.id <$> posts.
Proof.
  unfold ListView.assign_contents. rewrite fmap_imap.
  apply list_eq. intros i. rewrite list_lookup_imap, list_lookup_fmap.
  by destruct (posts !! i).
Qed.

(** X11. Whenever the list view's [getStaticProps] returns, the page is
    revalidated after 60 seconds and [posts] is never [null]: it is a list
    whose ids are the ids of the query results that have a property bag, in
    the order of the results (an empty list when there is none). *)
Theorem ListView_getStaticProps_result (notion : Client.t) (result : ListView.Result) :
  ListView.getStaticProps notion = Normal result ->
  ListView.revalidate result = 60 /\
  exists results posts,
    Client.databases_query notion = Normal results /\
    ListView.posts (ListView.props result) = Some posts /\
    Post.id <$> posts =
      Page.id <$> filter (fun page => is_Some (Page.properties page)) results.
Proof.
  unfold ListView.getStaticProps, ListView.getPosts.
  destruct (Client.databases_query notion) as [results|e]; [|discriminate]. simpl.
  destruct (ListView.getPosts_loop results []) as [posts|e] eqn:Hloop; [|discriminate].
  simpl.
  destruct (Promise_all _) as [contentsList|e]; [|discriminate]. simpl.
  intros [= <-]. simpl. split; [done|].
  exists results, (ListView.assign_contents contentsList posts).
  split; [done|]. split; [done|].
  rewrite assign_contents_ids. by apply getPosts_loop_ids in Hloop.
Qed.

Lemma ListView_getStaticProps_result_witness :
  exists posts,
    Post.id <$> posts = ["page-1"; "page-2"] /\
    ListView.getStaticProps
      (fixed_client [titled_page; bare_page; untitled_page] [paragraph_body]) =
      Normal {| ListView.props := {| ListView.posts := Some posts |};
                ListView.revalidate := 60 |}.
Proof.
  eexists. split; [|reflexivity].
  destruct (ListView_getStaticProps_result
              (fixed_client [titled_page; bare_page; untitled_page] [paragraph_body])
              _ eq_refl) as (_ & results & posts & Hquery & Hposts & Hids).
  injection Hquery as <-. injection Hposts as <-. exact Hids.
Defined.

(** ** [getStaticProps] and the component of the single-post view *)

(** X12. The single-post view on a first result with a property bag: when
    both queries are fulfilled, no typed property of the page lacks its
    member and every block has the payload of its tag, [getStaticProps]
    returns the post with the page's id and timestamps, the first segment
    of [Name] and of [Slug] (or [null]) and the specification's content
    sequence of the blocks queried under the page's id; the component
    renders that title in its [h1]. *)
Theorem SinglePost_getStaticProps_post
    (notion : Client.t) (page : Page.t) (rest : list Page.t)
    (properties : gmap string Property.t) (blocks : list Block.t) :
  Client.databases_query notion = Normal (page :: rest) ->
  Page.properties page = Some properties ->
  page_shaped page = true ->
  Client.blocks_children_list notion (Some (Page.id page)) = Normal blocks ->
  Forall (fun b => own_payload b = true) blocks ->
  let title := property_text properties "Name" "title" Property.title in
  let slug := property_text properties "Slug" "rich_text" Property.rich_text in
  let post := Post.mk (Page.id page) title slug
                (Page.created_time page) (Page.last_edited_time page)
                (spec_flatten blocks) in
  SinglePost.getStaticProps notion =
    Normal {| SinglePost.props := {| SinglePost.post := Some post |} |} /\
  SinglePost.Home {| SinglePost.post := Some post |} =
    Some (Fragment
            [Element "div" "wrapper"
               [Element "div" "post" [Element "h1" "title" [Text title]]]]).
Proof.
  intros Hquery Hbag Hshape Hchildren Hown title slug post. split; [|done].
  unfold SinglePost.getStaticProps. rewrite Hquery. simpl. rewrite Hchildren. simpl.
  rewrite Hbag. unfold page_shaped in Hshape. rewrite Hbag in Hshape.
  apply andb_true_iff in Hshape as [Hname Hslug].
  unfold SinglePost.title_of, SinglePost.slug_of.
  rewrite !read_property_text by done. simpl.
  by rewrite SinglePost_flattenBlocks_own.
Qed.

Lemma SinglePost_getStaticProps_post_witness :
  SinglePost.getStaticProps two_post_client =
    Normal {| SinglePost.props := {| SinglePost.post :=
      Some (Post.mk "page-1" (Some "Hello") (Some "hello")
              (Some "2023-04-01T09:00:00.000Z") (Some "2023-04-02T10:30:00.000Z")
              [TextContent Paragraph (Some "Body");
               CodeContent (Some "x = 1") (Some "python")]) |} |}.
Proof.
  apply (SinglePost_getStaticProps_post two_post_client titled_page
           [bare_page; untitled_page] titled_properties [paragraph_body; code_sample]).
  - reflexivity.
  - reflexivity.
  - reflexivity.
  - reflexivity.
  - repeat constructor.
Defined.

(** X13. The single-post view shows the first query result only: two
    clients whose database queries return the same first result, and whose
    block-children queries agree on that result's id, get the same outcome
    of [getStaticProps], whatever results follow the first. *)
Theorem SinglePost_getStaticProps_first_only
    (notion1 notion2 : Client.t) (page : Page.t) (rest1 rest2 : list Page.t) :
  Client.databases_query notion1 = Normal (page :: rest1) ->
  Client.databases_query notion2 = Normal (page :: rest2) ->
  Client.blocks_children_list notion1 (Some (Page.id page)) =
    Client.blocks_children_list notion2 (Some (Page.id page)) ->
  SinglePost.getStaticProps notion1 = SinglePost.getStaticProps notion2.
Proof.
  intros Hq1 Hq2 Hchildren. unfold SinglePost.getStaticProps.
  rewrite Hq1, Hq2. simpl. by rewrite Hchildren.
Qed.

Lemma SinglePost_getStaticProps_first_only_witness :
  SinglePost.getStaticProps (fixed_client [titled_page] [paragraph_body; code_sample]) =
    SinglePost.getStaticProps two_post_client.
Proof.
  apply (SinglePost_getStaticProps_first_only
           (fixed_client [titled_page] [paragraph_body; code_sample]) two_post_client
           titled_page [] [bare_page; untitled_page]);
    reflexivity.
Defined.

(** X14. The single-post view propagates both rejections: a rejected
    database query rejects [getStaticProps] with the same error, and so does
    a rejected block-children query, also when the database query returned
    no result (the block-children query is then made with an undefined block
    id, before the result list is tested). *)
Theorem SinglePost_getStaticProps_rejected (notion : Client.t) (e : JsError) :
  (Client.databases_query notion = Throw e ->
   SinglePost.getStaticProps notion = Throw e) /\
  (Client.databases_query notion = Normal [] ->
   Client.blocks_children_list notion None = Throw e ->
   SinglePost.getStaticProps notion = Throw e) /\
  (forall (page : Page.t) (rest : list Page.t),
      Client.databases_query notion = Normal (page :: rest) ->
      Client.blocks_children_list notion (Some (Page.id page)) = Throw e ->
      SinglePost.getStaticProps notion = Throw e).
Proof.
  unfold SinglePost.getStaticProps. repeat split.
  - by intros ->.
  - intros -> Hchildren. simpl. by rewrite Hchildren.
  - intros page rest -> Hchildren. simpl. by rewrite Hchildren.
Qed.

Lemma SinglePost_getStaticProps_rejected_witness :
  SinglePost.getStaticProps offline_client = Throw (Rejected "ECONNREFUSED") /\
  SinglePost.getStaticProps empty_client = Throw (Rejected "validation_error").
Proof.
  split.
  - apply (proj1 (SinglePost_getStaticProps_rejected offline_client
                    (Rejected "ECONNREFUSED"))). reflexivity.
  - apply (proj1 (proj2 (SinglePost_getStaticProps_rejected empty_client
                           (Rejected "validation_error")))); reflexivity.
Defined.

(** X15. Whenever the single-post view's [getStaticProps] returns, the
    component renders nothing exactly when the database query returned no
    result; with any first result, also a partial one, it renders the
    title element. *)
Theorem SinglePost_Home_blank_iff_no_result (notion : Client.t) (result : SinglePost.Result) :
  SinglePost.getStaticProps notion = Normal result ->
  (SinglePost.Home (SinglePost.props result) = None <->
   Client.databases_query notion = Normal []).
Proof.
  unfold SinglePost.getStaticProps.
  destruct (Client.databases_query notion) as [[|page rest]|e]; simpl; [| |discriminate].
  - destruct (Client.blocks_children_list notion None); simpl; [|discriminate].
    by intros [= <-].
  - destruct (Client.blocks_children_list notion _) as [blocks|e]; simpl; [|discriminate].
    destruct (Page.properties page) as [properties|].
    + destruct (SinglePost.title_of properties); simpl; [|discriminate].
      destruct (SinglePost.slug_of properties); simpl; [|discriminate].
      destruct (SinglePost.flattenBlocks blocks); simpl; [|discriminate].
      intros [= <-]. by split.
    + intros [= <-]. by split.
Qed.

Lemma SinglePost_Home_blank_iff_no_result_witness :
  SinglePost.Home {| SinglePost.post := None |} = None <->
  Client.databases_query (fixed_client [] [paragraph_body]) = Normal [].
Proof.
  apply (SinglePost_Home_blank_iff_no_result (fixed_client [] [paragraph_body])
           {| SinglePost.props := {| SinglePost.post := None |} |}).
  reflexivity.
Defined.

(** ** The list view, end to end *)

(** X16. The list view on data it handles: when the database query is
    fulfilled with pages whose typed properties have their members, and the
    block-children query of every post is fulfilled with API-shaped blocks
    none of which is a [heading_2] or a [quote], [getStaticProps] returns
    one post per result with a property bag, in order, and the post at every
    index carries the specification's content sequence of its own blocks
    without their [heading_3] blocks. *)
Theorem ListView_getStaticProps_posts (notion : Client.t) (results : list Page.t) :
  Client.databases_query notion = Normal results ->
  Forall (fun page => page_shaped page = true) results ->
  Forall (fun post => exists blocks,
            Client.blocks_children_list notion (Some (Post.id post)) = Normal blocks /\
            Forall (fun b => api_shaped b = true) blocks /\
            Forall (fun b => falls_through b = false) blocks)
         (omap post_of_page results) ->
  exists posts,
    ListView.getStaticProps notion =
      Normal {| ListView.props := {| ListView.posts := Some posts |};
                ListView.revalidate := 60 |} /\
    length posts = length (omap post_of_page results) /\
    forall (i : nat) (post : Post.t),
      omap post_of_page results !! i = Some post ->
      exists blocks,
        Client.blocks_children_list notion (Some (Post.id post)) = Normal blocks /\
        posts !! i =
          Some (Post.set_contents
                  (spec_flatten (filter (fun b => has_tag "heading_3" b = false) blocks))
                  post).
Proof.
  intros Hquery Hpages Hblocks.
  assert (Hposts : ListView.getPosts notion = Normal (omap post_of_page results)).
  { unfold ListView.getPosts. rewrite Hquery. simpl.
    by rewrite getPosts_loop_shaped. }
  set (posts0 := omap post_of_page results) in *.
  assert (Hfetch : forall post, post ∈ posts0 -> exists blocks,
            Client.blocks_children_list notion (Some (Post.id post)) = Normal blocks /\
            ListView.getPostContents notion post =
              Normal (spec_flatten (filter (fun b => has_tag "heading_3" b = false) blocks))).
  { intros post Hin.
    destruct (proj1 (Forall_forall _ _) Hblocks post Hin) as (blocks & Hq & Hshape & Hno).
    exists blocks. split; [done|]. unfold ListView.getPostContents. rewrite Hq. simpl.
    by apply ListView_flattenBlocks_no_fallthrough. }
  destruct (Promise_all_fulfilled (ListView.getPostContents notion) posts0)
    as [contentsList Hlist].
  { apply Forall_forall. intros post Hin. destruct (Hfetch post Hin) as (? & _ & ->).
    by eexists. }
  exists (ListView.assign_contents contentsList posts0).
  unfold ListView.getStaticProps. rewrite Hposts. simpl.
  change (fun post => ListView.getPostContents notion post)
    with (ListView.getPostContents notion).
  rewrite Hlist. simpl. split; [done|]. split; [apply length_imap|].
  intros i post Hi. apply Promise_all_Normal in Hlist.
  destruct (Hfetch post) as (blocks & Hq & Hrun);
    [by apply list_elem_of_lookup; exists i|].
  exists blocks. split; [done|].
  unfold ListView.assign_contents. rewrite list_lookup_imap, Hi. simpl.
  apply (f_equal (fun l => l !! i)) in Hlist.
  rewrite !list_lookup_fmap, Hi in Hlist. simpl in Hlist. rewrite Hrun in Hlist.
  destruct (contentsList !! i); simpl in *; [|discriminate].
  by injection Hlist as <-.
Qed.

Lemma ListView_getStaticProps_posts_witness :
  exists posts,
    ListView.getStaticProps
      (fixed_client [titled_page; bare_page; untitled_page]
         [paragraph_body; subheading_setup; code_sample]) =
      Normal {| ListView.props := {| ListView.posts := Some posts |};
                ListView.revalidate := 60 |} /\
    length posts = 2.
Proof.
  destruct (ListView_getStaticProps_posts
              (fixed_client [titled_page; bare_page; untitled_page]
                 [paragraph_body; subheading_setup; code_sample])
              [titled_page; bare_page; untitled_page])
    as (posts & Hrun & Hlen & _).
  - reflexivity.
  - repeat constructor.
  - repeat constructor; eexists; (split; [reflexivity | split; repeat constructor]).
  - exists posts. split; [exact Hrun | exact Hlen].
Defined.
